(** * node-statsd: the line encoder, the delta trackers and the command line

    A shallow embedding of [index.js] and the properties of its formatting
    and delta-tracking logic.  The embedding follows the latest revision, the
    one with the battery sampler and the resync tick; the two earlier ones
    kept beside it (a formatter without tags; a tag constructor that replaces
    nothing, and no battery sampler) are not modelled.

    - JavaScript values are the three kinds the program handles: [undefined],
      numbers and strings.
    - Numbers are exact decimals [mant / 10 ^ places].  Node computes in
      binary64; the two agree on integers below 2^53 and on the short decimal
      literals used here.  No statement below rests on a rounding identity:
      subtraction, comparison and printing are kept symbolic wherever a
      statement quantifies over numbers.
    - Arrays are objects: a [heap] maps a reference to the contents of the
      array, and [push] updates the cell in place.
    - The closure variables of [run] ([latency], [disks], [battery]) and the
      datagrams handed to [udp.send] form the record [state]; samplers are
      computations in a state-and-exception monad.
    - A provider query is split the way the event loop runs it: the part
      executed by the call, and the callback executed with the reading. *)

From Stdlib Require Import ZArith String Ascii List Bool Lia DecimalString.
From stdpp Require Import base option list gmap strings.

Local Open Scope string_scope.
Local Open Scope Z_scope.

(** ** Numbers *)

Module Num.

Record number := Dec { mant : Z; places : nat }.

Definition pow10 (n : nat) : Z := 10 ^ Z.of_nat n.

Definition of_Z (z : Z) : number := Dec z 0.

(** [a - b] *)
Definition sub (a b : number) : number :=
  let p := Nat.max (places a) (places b) in
  Dec (mant a * pow10 (p - places a) - mant b * pow10 (p - places b)) p.

(** [a >= 0] *)
Definition ge0 (a : number) : bool := 0 <=? mant a.

(** [a === b] on numbers *)
Definition eqb (a b : number) : bool :=
  mant a * pow10 (places b) =? mant b * pow10 (places a).

(** [Math.round(a * k) / k] for [k = 10 ^ d]: [Math.round] rounds to the
    nearest integer, halves towards +infinity. *)
Definition round_to (d : nat) (a : number) : number :=
  Dec ((2 * (mant a * pow10 d) + pow10 (places a)) / (2 * pow10 (places a))) d.

Definition Z_to_string (z : Z) : string := NilZero.string_of_int (Z.to_int z).

Fixpoint strip_zeros (m : Z) (p : nat) : Z * nat :=
  match p with
  | O => (m, O)
  | S p' => if m mod 10 =? 0 then strip_zeros (m / 10) p' else (m, p)
  end.

Fixpoint zeros (n : nat) : string :=
  match n with
  | O => ""
  | S n' => String "0" (zeros n')
  end.

Definition pad_left (p : nat) (s : string) : string :=
  zeros (p - String.length s) +:+ s.

(** Number::toString in the range printed positionally
    (1e-6 <= |a| < 1e21, or zero). *)
Definition to_string (a : number) : string :=
  let '(m, p) := strip_zeros (Z.abs (mant a)) (places a) in
  let sign := if mant a <? 0 then "-" else "" in
  match p with
  | O => sign +:+ Z_to_string m
  | S _ => sign +:+ Z_to_string (m / pow10 p) +:+ "."
                +:+ pad_left p (Z_to_string (m mod pow10 p))
  end.

End Num.

Abbreviation number := Num.number.

(** Integer literal of the source. *)
Definition int (z : Z) : number := Num.of_Z z.

(** ** Values *)

Inductive jsval :=
| VUndefined
| VNumber (n : number)
| VString (s : string).

(** Conversion done by a template literal [`${v}`]. *)
Definition ToString (v : jsval) : string :=
  match v with
  | VUndefined => "undefined"
  | VNumber n => Num.to_string n
  | VString s => s
  end.

(** ** Strings *)

(** [s.replace(/c/g, d)] for a one-character pattern. *)
Fixpoint replace_all (c d : ascii) (s : string) : string :=
  match s with
  | EmptyString => EmptyString
  | String a s' => String (if Ascii.eqb a c then d else a) (replace_all c d s')
  end.

(** [s.replace(c, '')] with a string pattern: only the first occurrence. *)
Fixpoint remove_first (c : ascii) (s : string) : string :=
  match s with
  | EmptyString => EmptyString
  | String a s' => if Ascii.eqb a c then s' else String a (remove_first c s')
  end.

(** [arr.join(sep)] *)
Fixpoint join (sep : string) (l : list string) : string :=
  match l with
  | [] => ""
  | [x] => x
  | x :: l' => x +:+ sep +:+ join sep l'
  end.

(** [c] occurs in [s]. *)
Fixpoint occurs (c : ascii) (s : string) : bool :=
  match s with
  | EmptyString => false
  | String a s' => Ascii.eqb a c || occurs c s'
  end.

(** ** Constants of the script *)

Definition prefix : string := "_t_".

(** ** Tags *)

Record Tag := mkTag { t_tag : jsval; t_value : jsval }.

Definition format (input : jsval) : jsval :=
  match input with
  | VString s => VString (replace_all " " "-" (replace_all "." "-" s))
  | _ => input
  end.

Definition tag (tag value : jsval) : Tag :=
  {| t_tag := format tag; t_value := format value |}.

(** ** Results and the array heap *)

Inductive error :=
| NotAMetricType (type : jsval).
  (* new Error(`${JSON.stringify(type)} is not a statsd metric type ...`) *)

Inductive result (A : Type) :=
| Return (a : A)
| Throw (e : error).
Arguments Return {A} a.
Arguments Throw {A} e.

Definition loc := nat.

(** Contents of every array object; a reference never allocated reads as the
    empty array. *)
Abbreviation heap := (gmap loc (list Tag)).

Definition contents (h : heap) (l : loc) : list Tag := default [] (h !! l).

(** [arr.push(x)] *)
Definition push (l : loc) (x : Tag) (h : heap) : heap :=
  <[l := (contents h l ++ [x])%list]> h.

(** [[]]: a new array object. *)
Definition alloc (xs : list Tag) (h : heap) : loc * heap :=
  let l := fresh (dom h) in (l, <[l := xs]> h).

(** ** The line encoder *)

Definition allowedMetrics : list string := ["c"; "s"; "g"; "ms"].

(** [arr.includes(v)] for an array of strings. *)
Definition includes (arr : list string) (v : jsval) : bool :=
  match v with
  | VString s => existsb (String.eqb s) arr
  | _ => false
  end.

Definition render (elem : Tag) : string :=
  prefix +:+ ToString (t_tag elem) +:+ "." +:+ ToString (t_value elem).

Section Encoder.

(** [os.hostname()], read once at start. *)
Variable hostname : string.

Definition statsdFormat (metric : string) (value type : jsval)
    (moreTags : option loc) (h : heap) : result string * heap :=
  if negb (includes allowedMetrics type) then (Throw (NotAMetricType type), h)
  else
    let '(moreTags, h) :=
      match moreTags with
      | Some l => (l, h)
      | None => alloc [] h
      end in
    let h := push moreTags (tag (VString "hostname") (VString hostname)) h in
    let tags := join "." (map render (contents h moreTags)) in
    (Return (metric +:+ "." +:+ tags +:+ ":" +:+ ToString value +:+ "|"
               +:+ ToString type), h).

End Encoder.

(** ** The closure state of [run] and its monad *)

Record state := mkState {
  arrays : heap;                  (* array objects *)
  latency : number;               (* let latency = -1 *)
  disks : gmap string number;     (* let disks = {} *)
  battery : number;               (* let battery = -1 *)
  sent : list string              (* datagrams given to udp.send, oldest first *)
}.

Definition init : state :=
  {| arrays := ∅; latency := int (-1); disks := ∅; battery := int (-1);
     sent := [] |}.

(** A computation reads and writes the state and may throw; what it wrote
    before throwing stays written. *)
Definition M (A : Type) : Type := state -> result A * state.

Definition ret {A} (a : A) : M A := fun st => (Return a, st).

Definition bind {A B} (c : M A) (k : A -> M B) : M B :=
  fun st =>
    match c st with
    | (Return a, st') => k a st'
    | (Throw e, st') => (Throw e, st')
    end.

Notation "'let*' x ':=' c 'in' k" := (bind c (fun x => k))
  (at level 10, x name, c at level 100, k at level 200).
Notation "c ';;' k" := (bind c (fun _ => k))
  (at level 100, k at level 200, right associativity).

Definition get_latency : M number := fun st => (Return (latency st), st).
Definition get_disks : M (gmap string number) := fun st => (Return (disks st), st).
Definition get_battery : M number := fun st => (Return (battery st), st).

Definition set_latency (v : number) : M unit := fun st =>
  (Return tt, {| arrays := arrays st; latency := v; disks := disks st;
                 battery := battery st; sent := sent st |}).
Definition set_disks (v : gmap string number) : M unit := fun st =>
  (Return tt, {| arrays := arrays st; latency := latency st; disks := v;
                 battery := battery st; sent := sent st |}).
Definition set_battery (v : number) : M unit := fun st =>
  (Return tt, {| arrays := arrays st; latency := latency st; disks := disks st;
                 battery := v; sent := sent st |}).
Definition set_arrays (h : heap) (st : state) : state :=
  {| arrays := h; latency := latency st; disks := disks st;
     battery := battery st; sent := sent st |}.

(** An array literal [[t1, ..., tn]]. *)
Definition new_array (xs : list Tag) : M loc := fun st =>
  let '(l, h) := alloc xs (arrays st) in (Return l, set_arrays h st).

(** [arr.forEach(f)] *)
Fixpoint forEach {A} (f : A -> M unit) (arr : list A) : M unit :=
  match arr with
  | [] => ret tt
  | x :: arr' => f x ;; forEach f arr'
  end.

(** ** Transport *)

Definition debug : bool := false.

Definition newline : string := String (ascii_of_nat 10) EmptyString.

Inductive message :=
| Line (s : string)
| Lines (l : list string).

Definition send (message : message) : M unit := fun st =>
  let message :=
    match message with
    | Lines l => join newline l
    | Line s => s
    end in
  if negb debug then
    (Return tt, {| arrays := arrays st; latency := latency st;
                   disks := disks st; battery := battery st;
                   sent := (sent st ++ [message])%list |})
  else (Return tt, st).   (* console.log(message) *)

(** ** Provider readings *)

Record device := mkDevice {
  d_use : number; d_mount : string; d_type : jsval; d_fs : string }.

Record battery_data := mkBattery { hasbattery : bool; percent : number }.

(** ** The medium-tier samplers *)

Section Samplers.

Variable hostname : string.

(** [statsdFormat] called from inside [run]. *)
Definition statsdFormat_M (metric : string) (value type : jsval)
    (moreTags : option loc) : M string := fun st =>
  let '(r, h) := statsdFormat hostname metric value type moreTags (arrays st) in
  (r, set_arrays h st).

(** [if (value >= 0) value = `+${value}`] *)
Definition signed (value : number) : jsval :=
  if Num.ge0 value then VString ("+" +:+ Num.to_string value)
  else VNumber value.

(** The part of [getLatency] run by the call; [si.inetLatency] then waits
    for the reading. *)
Definition getLatency : M unit :=
  let* latency := get_latency in
  if Num.eqb latency (int (-1)) then
    let* line := statsdFormat_M "latency" (VNumber (int 0)) (VString "g") None in
    send (Line line)
  else ret tt.

(** The callback of [si.inetLatency]. *)
Definition getLatency_cb (ms : number) : M unit :=
  let* latency := get_latency in
  let value := signed (Num.sub ms latency) in
  let* line := statsdFormat_M "latency" value (VString "g") None in
  send (Line line) ;;
  set_latency ms.

(** The body of [mounted.forEach] in the callback of [si.fsSize].  The keys
    of [disks] are mount points, never a name of [Object.prototype]. *)
Definition getDiskUsage_device (device : device) : M unit :=
  let calc := Num.round_to 3 (d_use device) in
  let mount := remove_first ":" (d_mount device) in
  let* disks := get_disks in
  let value :=
    match disks !! mount with
    | Some stored => signed (Num.sub stored calc)
    | None => VNumber calc
    end in
  let* arr := new_array [tag (VString "type") (d_type device);
                         tag (VString "mount") (VString mount);
                         tag (VString "fs")
                           (VString (remove_first ":" (d_fs device)))] in
  let* line := statsdFormat_M "disk_usage" value (VString "g") (Some arr) in
  send (Line line) ;;
  let* disks := get_disks in
  set_disks (<[mount := calc]> disks).

(** The callback of [si.fsSize]. *)
Definition getDiskUsage_cb (mounted : list device) : M unit :=
  forEach getDiskUsage_device mounted.

(** The callback of [si.battery]. *)
Definition getBattery_cb (data : battery_data) : M unit :=
  if negb (hasbattery data) then ret tt
  else
    let* battery := get_battery in
    if Num.eqb battery (int (-1)) then
      let* line := statsdFormat_M "battery" (VNumber (percent data))
                     (VString "g") None in
      send (Line line) ;;
      set_battery (percent data)
    else
      let value := signed (Num.sub (percent data) battery) in
      let* line := statsdFormat_M "battery" value (VString "g") None in
      send (Line line).

(** [getDiskUsage] and [getBattery] only register their callbacks. *)
Definition getDiskUsage : M unit := ret tt.
Definition getBattery : M unit := ret tt.

Definition getMedFreq : M unit :=
  getLatency ;; getDiskUsage ;; getBattery.

(** The resync tick. *)
Definition sendRaw : M unit :=
  set_battery (int (-1)) ;;
  set_latency (int (-1)) ;;
  set_disks ∅ ;;
  getMedFreq.

(** What the event loop runs, one at a time. *)
Inductive event :=
| MedFreqTick
| ResyncTick
| LatencyReply (ms : number)
| FsSizeReply (mounted : list device)
| BatteryReply (data : battery_data).

Definition handle (e : event) : M unit :=
  match e with
  | MedFreqTick => getMedFreq
  | ResyncTick => sendRaw
  | LatencyReply ms => getLatency_cb ms
  | FsSizeReply mounted => getDiskUsage_cb mounted
  | BatteryReply data => getBattery_cb data
  end.

(** [run()] calls [getMedFreq()] once, then the loop takes over. *)
Definition run_events (es : list event) : M unit :=
  getMedFreq ;; forEach handle es.

End Samplers.

(** ** The fast-tier samplers *)

(** [a > b] on numbers *)
Definition num_gt (a b : number) : bool :=
  Num.mant b * Num.pow10 (Num.places a) <? Num.mant a * Num.pow10 (Num.places b).

Record cpu := mkCpu { load : number }.


Record net_stats := mkStats { rx_sec : number; tx_sec : number }.

Record io_stats := mkIO { rIO_sec : number; wIO_sec : number }.

(** [arr.forEach((x, index) => ...)] *)
Fixpoint forEach_index {A} (f : A -> nat -> M unit) (index : nat)
    (arr : list A) : M unit :=
  match arr with
  | [] => ret tt
  | x :: arr' => f x index ;; forEach_index f (S index) arr'
  end.

Section FastSamplers.

Variable hostname : string.

(** The body of [data.cpus.forEach] in [getCpuUsage]. *)
Definition getCpuUsage_cpu (cpu : cpu) (index : nat) : M unit :=
  let load := Num.round_to 0 (load cpu) in
  let* arr := new_array [tag (VString "cpu") (VNumber (int (Z.of_nat index)))] in
  let* line := statsdFormat_M hostname "cpu_usage" (VNumber load) (VString "c")
                 (Some arr) in
  send (Line line).

(** The [then] of [si.currentLoad()]. *)
Definition getCpuUsage_cb (cpus : list cpu) : M unit :=
  forEach_index getCpuUsage_cpu 0 cpus.


(** The callback of [si.networkStats(iface, ...)]. *)
Definition getNetworkUse_cb (iface : string) (data : net_stats) : M unit :=
  if num_gt (tx_sec data) (int (-1)) && num_gt (rx_sec data) (int (-1)) then
    let* arr := new_array [tag (VString "interface") (VString iface);
                           tag (VString "direction") (VString "rx")] in
    let* rx := statsdFormat_M hostname "network" (VNumber (rx_sec data))
                 (VString "c") (Some arr) in
    let* arr := new_array [tag (VString "interface") (VString iface);
                           tag (VString "direction") (VString "tx")] in
    let* tx := statsdFormat_M hostname "network" (VNumber (tx_sec data))
                 (VString "c") (Some arr) in
    send (Lines [rx; tx])
  else ret tt.

(** [getUptime], given what [si.time().uptime] reads. *)
Definition getUptime (uptime : number) : M unit :=
  let* line := statsdFormat_M hostname "uptime" (VNumber uptime) (VString "c")
                 None in
  send (Line line).

(** [getDiskIO] goes on to [si.disksIO] unless the platform is win32. *)
Definition getDiskIO_asks (platform : string) : bool :=
  negb (String.eqb platform "win32").

(** The callback of [si.disksIO]. *)
Definition getDiskIO_cb (data : io_stats) : M unit :=
  let rio := rIO_sec data in
  let wio := wIO_sec data in
  let* arr := new_array [tag (VString "direction") (VString "read")] in
  let* line := statsdFormat_M hostname "diskio" (VNumber rio) (VString "c")
                 (Some arr) in
  send (Line line) ;;
  let* arr := new_array [tag (VString "direction") (VString "write")] in
  let* line := statsdFormat_M hostname "diskio" (VNumber wio) (VString "c")
                 (Some arr) in
  send (Line line).

(** What the event loop runs for the fast tier.  Of [getHighFreq] itself only
    [getUptime] sends at once; the other four wait for the provider. *)
Inductive fast_event :=
| HighFreqTick (uptime : number)
| CurrentLoadReply (cpus : list cpu)
| NetworkStatsReply (iface : string) (data : net_stats)
| DisksIOReply (data : io_stats).

Definition handle_fast (e : fast_event) : M unit :=
  match e with
  | HighFreqTick uptime => getUptime uptime
  | CurrentLoadReply cpus => getCpuUsage_cb cpus
  | NetworkStatsReply iface data => getNetworkUse_cb iface data
  | DisksIOReply data => getDiskIO_cb data
  end.



End FastSamplers.

(** [n] calls of [statsdFormat] with one array. *)
Fixpoint statsdFormat_times (hostname metric : string) (value type : jsval)
    (l : loc) (n : nat) (h : heap) : heap :=
  match n with
  | O => h
  | S n' =>
      statsdFormat_times hostname metric value type l n'
        (statsdFormat hostname metric value type (Some l) h).2
  end.

(** The three stored values are the same in both states. *)
Definition same_tracker (st st' : state) : Prop :=
  latency st' = latency st /\ disks st' = disks st /\ battery st' = battery st.

(** ** The command line *)

Record options := mkOptions {
  o_args : list string;
  o_username : option jsval;      (* [None]: the property is absent *)
  o_password : option jsval
}.

Inductive effect :=
| Log (s : string)
| ServiceAdd (name : string) (o : options)
| ServiceRemove (name : string)
| ServiceRun
| Run
| Exit (code : Z).

(** [process.argv[i]] *)
Definition argv_at (argv : list string) (i : nat) : jsval :=
  match argv !! i with
  | Some s => VString s
  | None => VUndefined
  end.

(** [v === s] for a string literal [s]. *)
Definition is_string (v : jsval) (s : string) : bool :=
  match v with
  | VString s' => String.eqb s' s
  | _ => false
  end.

Definition usage : list effect :=
  [Log "usage: node index.js --add [username] [password]";
   Log "       node index.js --remove";
   Log "       node index.js --run";
   Exit 0].

(** The dispatch at the end of the script, up to the callbacks of the
    service library. *)
Definition main (argv : list string) : list effect :=
  if is_string (argv_at argv 2) "--add" && (3 <=? length argv)%nat then
    let options := {| o_args := ["--run"]; o_username := None;
                      o_password := None |} in
    let options :=
      if (3 <? length argv)%nat then
        {| o_args := o_args options; o_username := Some (argv_at argv 3);
           o_password := o_password options |}
      else options in
    let options :=
      if (length argv =? 4)%nat then
        {| o_args := o_args options; o_username := o_username options;
           o_password := Some (argv_at argv 4) |}
      else options in
    [Log "adding service..."; ServiceAdd "node-statsd" options]
  else if is_string (argv_at argv 2) "--remove" then
    [Log "removing service..."; ServiceRemove "node-statsd"]
  else if is_string (argv_at argv 2) "--run" then
    [ServiceRun; Log "running..."; Run]
  else usage.

(** * Vocabulary of the statements *)

(** Each element followed by a dot. *)
Fixpoint dotted (l : list string) : string :=
  match l with
  | [] => ""
  | x :: l' => x +:+ "." +:+ dotted l'
  end.

Definition allowed (type : jsval) : Prop :=
  type = VString "c" \/ type = VString "s" \/ type = VString "g"
  \/ type = VString "ms".

(** Neither a dot nor a space occurs in [s]. *)
Definition clean (s : string) : bool :=
  negb (occurs "." s) && negb (occurs " " s).

(** What the two replacements do to one character. *)
Definition dash (a : ascii) : ascii :=
  if Ascii.eqb a "." then "-"%char
  else if Ascii.eqb a " " then "-"%char else a.

(** The tags a call is given: the contents of the array it is passed, none
    when the argument is left out. *)
Definition given (moreTags : option loc) (h : heap) : list Tag :=
  match moreTags with
  | Some l => contents h l
  | None => []
  end.

Definition host_tag (hostname : string) : Tag :=
  tag (VString "hostname") (VString hostname).

(** The line of the wire protocol for a list of tags: every tag followed by
    a dot, then the host tag. *)
Definition wire_line (hostname metric : string) (value type : jsval)
    (tags : list Tag) : string :=
  metric +:+ "." +:+ dotted (map render tags)
    +:+ prefix +:+ "hostname." +:+ ToString (format (VString hostname))
    +:+ ":" +:+ ToString value +:+ "|" +:+ ToString type.

(** The array a call works on, and the heap holding it. *)
Definition array_of (moreTags : option loc) (h : heap) : loc * heap :=
  match moreTags with
  | Some l => (l, h)
  | None => alloc [] h
  end.

(** The line a sampler sends for a gauge. *)
Definition gauge (hostname metric : string) (value : jsval) (tags : list Tag)
    : string :=
  wire_line hostname metric value (VString "g") tags.

(** The tags of a disk line. *)
Definition disk_tags (device : device) : list Tag :=
  [tag (VString "type") (d_type device);
   tag (VString "mount") (VString (remove_first ":" (d_mount device)));
   tag (VString "fs") (VString (remove_first ":" (d_fs device)))].

(** The value of a disk line. *)
Definition disk_value (device : device) (st : state) : jsval :=
  match disks st !! remove_first ":" (d_mount device) with
  | Some stored => signed (Num.sub stored (Num.round_to 3 (d_use device)))
  | None => VNumber (Num.round_to 3 (d_use device))
  end.

(** ** The delta tracker, as the three samplers implement it *)

(** What a stored value is kept under: a mount point in [disks], or one of
    the two scalars. *)
Inductive key :=
| KDisk (mount : string)
| KBattery
| KLatency.

(** A reading delivered by the provider (a battery reading of a host that has
    a battery). *)
Inductive reading :=
| RDisk (device : device)
| RBattery (percent : number)
| RLatency (ms : number).

Definition key_of (r : reading) : key :=
  match r with
  | RDisk device => KDisk (remove_first ":" (d_mount device))
  | RBattery _ => KBattery
  | RLatency _ => KLatency
  end.

(** The absolute value the sampler computes from the reading. *)
Definition absolute (r : reading) : number :=
  match r with
  | RDisk device => Num.round_to 3 (d_use device)
  | RBattery percent => percent
  | RLatency ms => ms
  end.

Definition metric_of (r : reading) : string :=
  match r with
  | RDisk _ => "disk_usage"
  | RBattery _ => "battery"
  | RLatency _ => "latency"
  end.

Definition tags_of (r : reading) : list Tag :=
  match r with
  | RDisk device => disk_tags device
  | _ => []
  end.

(** The variable behind a key. *)
Definition slot (st : state) (k : key) : option number :=
  match k with
  | KDisk mount => disks st !! mount
  | KBattery => Some (battery st)
  | KLatency => Some (latency st)
  end.

(** The value the tracker holds for a key: none for a mount absent from
    [disks] and for a scalar at -1. *)
Definition stored (st : state) (k : key) : option number :=
  match slot st k with
  | Some v =>
      match k with
      | KDisk _ => Some v
      | _ => if Num.eqb v (int (-1)) then None else Some v
      end
  | None => None
  end.

(** One observation: what runs from the query to the end of its callback. *)
Definition observe (hostname : string) (r : reading) : M unit :=
  match r with
  | RDisk device => getDiskUsage ;; getDiskUsage_device hostname device
  | RBattery percent =>
      getBattery ;;
      getBattery_cb hostname {| hasbattery := true; percent := percent |}
  | RLatency ms => getLatency hostname ;; getLatency_cb hostname ms
  end.

(** The datagrams a computation sends from [st]. *)
Definition emitted (c : M unit) (st : state) : list string :=
  drop (length (sent st)) (sent (c st).2).

(** ** The lines of the fast tier *)

(** The line a sampler sends for a counter. *)
Definition counter (hostname metric : string) (value : jsval) (tags : list Tag)
    : string :=
  wire_line hostname metric value (VString "c") tags.

Definition cpu_line (hostname : string) (index : nat) (cpu : cpu) : string :=
  counter hostname "cpu_usage" (VNumber (Num.round_to 0 (load cpu)))
    [tag (VString "cpu") (VNumber (int (Z.of_nat index)))].

Definition network_line (hostname iface direction : string) (rate : number)
    : string :=
  counter hostname "network" (VNumber rate)
    [tag (VString "interface") (VString iface);
     tag (VString "direction") (VString direction)].

Definition diskio_line (hostname direction : string) (rate : number) : string :=
  counter hostname "diskio" (VNumber rate)
    [tag (VString "direction") (VString direction)].

(** The mount a device is tracked under. *)
Definition mount_key (device : device) : string :=
  remove_first ":" (d_mount device).

(** ** Runs of the loop *)

(** A computation that returns from every state, only adds to what was sent,
    and whose additions and stored values depend on the three stored values
    alone. *)
Definition regular (c : M unit) : Prop :=
  forall st, exists h' la di ba ls,
    c st = (Return tt,
            {| arrays := h'; latency := la; disks := di; battery := ba;
               sent := (sent st ++ ls)%list |})
    /\ forall st2, same_tracker st st2 ->
         exists h2,
           c st2 = (Return tt,
                    {| arrays := h2; latency := la; disks := di; battery := ba;
                       sent := (sent st2 ++ ls)%list |}).

(** A computation that leaves the three stored values as they are. *)
Definition keeps_tracker (c : M unit) : Prop :=
  forall st, same_tracker st (c st).2.


(** ** Replies in a row *)

(** [disks] after a reply of [si.fsSize]. *)
Definition disks_after (mounted : list device) (di : gmap string number)
    : gmap string number :=
  foldl (fun di device =>
           <[mount_key device := Num.round_to 3 (d_use device)]> di)
    di mounted.

(** Battery replies of a host that has a battery. *)
Definition battery_replies (pcts : list number) : list event :=
  map (fun pct => BatteryReply {| hasbattery := true; percent := pct |}) pcts.

(** ** Sample inputs *)

Definition dev (use : Z) (mount : string) : device :=
  {| d_use := int use; d_mount := mount; d_type := VString "ext4";
     d_fs := "/dev/sda1" |}.

(** * Properties *)

(** ** Printing numbers *)

Example to_string_42 : Num.to_string (int 42) = "42".
Proof. reflexivity. Qed.

Example to_string_minus_5 : Num.to_string (int (-5)) = "-5".
Proof. reflexivity. Qed.

Example to_string_half : Num.to_string (Num.Dec 5 1) = "0.5".
Proof. reflexivity. Qed.

Example to_string_trailing_zeros : Num.to_string (Num.Dec (-12050) 3) = "-12.05".
Proof. reflexivity. Qed.

Example round_to_3 : Num.to_string (Num.round_to 3 (Num.Dec 123456 4)) = "12.346".
Proof. reflexivity. Qed.

Example round_to_3_integer : Num.to_string (Num.round_to 3 (int 10)) = "10".
Proof. reflexivity. Qed.

Example minus_one_is_minus_one : Num.eqb (Num.Dec (-10) 1) (int (-1)) = true.
Proof. reflexivity. Qed.

(** ** Strings and arrays *)

Lemma append_cons (x : ascii) (a b : string) :
  String x a +:+ b = String x (a +:+ b).
Proof. reflexivity. Qed.

Lemma append_assoc (a b c : string) : (a +:+ b) +:+ c = a +:+ (b +:+ c).
Proof.
  induction a as [|x a IH]; [reflexivity |].
  rewrite !append_cons. now f_equal.
Qed.

Lemma length_append (a b : string) :
  String.length (a +:+ b) = (String.length a + String.length b)%nat.
Proof.
  induction a as [|x a IH]; [reflexivity |].
  rewrite append_cons. cbn [String.length Nat.add]. now f_equal.
Qed.

Lemma join_cons_snoc (a : string) (l : list string) (x : string) :
  join "." (a :: l ++ [x])%list = a +:+ "." +:+ join "." (l ++ [x])%list.
Proof. destruct l; reflexivity. Qed.

Lemma join_snoc (l : list string) (x : string) :
  join "." (l ++ [x])%list = dotted l +:+ x.
Proof.
  induction l as [|a l IH]; [reflexivity |].
  change ((a :: l) ++ [x])%list with (a :: l ++ [x])%list.
  rewrite join_cons_snoc, IH.
  change (dotted (a :: l)) with (a +:+ "." +:+ dotted l).
  now rewrite !append_assoc.
Qed.

Lemma contents_insert (h : heap) (l : loc) (xs : list Tag) :
  contents (<[l := xs]> h) l = xs.
Proof. unfold contents. now rewrite lookup_insert_eq. Qed.

Lemma contents_push (h : heap) (l : loc) (x : Tag) :
  contents (push l x h) l = (contents h l ++ [x])%list.
Proof. apply contents_insert. Qed.

Lemma contents_alloc (h : heap) (xs : list Tag) :
  contents (alloc xs h).2 (alloc xs h).1 = xs.
Proof. apply contents_insert. Qed.

(** ** The type check *)

Lemma includes_allowed (type : jsval) :
  includes allowedMetrics type = true <-> allowed type.
Proof.
  unfold allowed. destruct type as [| n | s]; simpl.
  - split; [discriminate | intros [H|[H|[H|H]]]; discriminate].
  - split; [discriminate | intros [H|[H|[H|H]]]; discriminate].
  - rewrite !orb_true_iff, !String.eqb_eq. split.
    + intros [H|[H|[H|[H|H]]]]; subst; auto. discriminate.
    + intros [H|[H|[H|H]]]; injection H as ->; auto.
Qed.

(** ** The tag constructor *)

Lemma occurs_replace_all (c d : ascii) (s : string) :
  c <> d -> occurs c (replace_all c d s) = false.
Proof.
  intros Hcd. induction s as [|a s IH]; [reflexivity |].
  cbn [replace_all occurs]. rewrite IH, orb_false_r.
  destruct (Ascii.eqb a c) eqn:E; [| exact E].
  apply Ascii.eqb_neq. congruence.
Qed.

Lemma occurs_replace_other (c d e : ascii) (s : string) :
  d <> e -> occurs e s = false -> occurs e (replace_all c d s) = false.
Proof.
  intros Hde. induction s as [|a s IH]; [reflexivity |].
  cbn [replace_all occurs]. intros [Ha Hs]%orb_false_iff.
  rewrite (IH Hs), orb_false_r.
  destruct (Ascii.eqb a c); [| exact Ha].
  now apply Ascii.eqb_neq.
Qed.

Lemma replace_all_absent (c d : ascii) (s : string) :
  occurs c s = false -> replace_all c d s = s.
Proof.
  induction s as [|a s IH]; [reflexivity |].
  cbn [replace_all occurs]. intros [Ha Hs]%orb_false_iff.
  now rewrite Ha, (IH Hs).
Qed.

Lemma format_string_clean (s : string) :
  clean (ToString (format (VString s))) = true.
Proof.
  unfold clean. cbn [format ToString].
  rewrite occurs_replace_all by discriminate.
  rewrite occurs_replace_other; [reflexivity | discriminate |].
  apply occurs_replace_all. discriminate.
Qed.

Lemma format_string_get (s : string) (i : nat) :
  String.get i (ToString (format (VString s))) = dash <$> String.get i s.
Proof.
  cbn [format ToString]. revert i.
  induction s as [|a s IH]; intros i; [reflexivity |].
  cbn [replace_all]. destruct i as [|i]; cbn [String.get].
  - change (dash <$> Some a) with (Some (dash a)). unfold dash.
    destruct (Ascii.eqb a "."); [reflexivity |].
    destruct (Ascii.eqb a " "); reflexivity.
  - apply IH.
Qed.

Lemma format_clean_id (s : string) :
  clean s = true -> format (VString s) = VString s.
Proof.
  unfold clean. intros [H1 H2]%andb_true_iff.
  apply negb_true_iff in H1, H2. cbn [format].
  now rewrite (replace_all_absent "." "-" s H1), (replace_all_absent " " "-" s H2).
Qed.

(** ** The line encoder *)

Lemma wire_line_join (hostname metric : string) (value type : jsval)
    (tags : list Tag) :
  metric +:+ "." +:+ join "." (map render (tags ++ [host_tag hostname]))
    +:+ ":" +:+ ToString value +:+ "|" +:+ ToString type
  = wire_line hostname metric value type tags.
Proof.
  unfold wire_line. rewrite map_app. cbn [map].
  rewrite join_snoc, append_assoc. reflexivity.
Qed.

Lemma contents_array_of (moreTags : option loc) (h : heap) :
  contents (array_of moreTags h).2 (array_of moreTags h).1 = given moreTags h.
Proof. destruct moreTags; [reflexivity | apply contents_alloc]. Qed.

Lemma statsdFormat_Return hostname metric value type moreTags h :
  allowed type ->
  statsdFormat hostname metric value type moreTags h =
    (Return (wire_line hostname metric value type (given moreTags h)),
     push (array_of moreTags h).1 (host_tag hostname) (array_of moreTags h).2).
Proof.
  intros Hty%includes_allowed. unfold statsdFormat. rewrite Hty. cbn [negb].
  fold (array_of moreTags h). fold (host_tag hostname).
  destruct (array_of moreTags h) as [l h1] eqn:E.
  rewrite contents_push.
  pose proof (contents_array_of moreTags h) as Hc. rewrite E in Hc.
  cbn [fst snd] in *. rewrite Hc, wire_line_join. reflexivity.
Qed.

Lemma statsdFormat_Throw hostname metric value type moreTags h :
  ~ allowed type ->
  statsdFormat hostname metric value type moreTags h =
    (Throw (NotAMetricType type), h).
Proof.
  intros Hty. unfold statsdFormat.
  destruct (includes allowedMetrics type) eqn:E; [| reflexivity].
  now apply includes_allowed in E.
Qed.

(** C1. For a type among c, s, g and ms, [statsdFormat] returns
    [metric.<tag1>. ... .<tagn>._t_hostname.<host>:<value>|<type>]: the tags it
    is given, each as prefix, name, dot, value, in their order, and after them
    the host tag, whose value is the host name as the tag constructor leaves
    it (the host name itself when it has no dot and no space).  The array it
    is passed holds afterwards the given tags and the one host tag, last. *)
Theorem statsdFormat_grammar hostname metric value type moreTags h :
  allowed type ->
  (statsdFormat hostname metric value type moreTags h).1 =
    Return (metric +:+ "." +:+ dotted (map render (given moreTags h))
              +:+ prefix +:+ "hostname."
              +:+ ToString (format (VString hostname))
              +:+ ":" +:+ ToString value +:+ "|" +:+ ToString type)
  /\ (forall l, moreTags = Some l ->
        contents (statsdFormat hostname metric value type moreTags h).2 l =
          (given moreTags h ++ [tag (VString "hostname") (VString hostname)])%list)
  /\ (clean hostname = true -> ToString (format (VString hostname)) = hostname).
Proof.
  intros Hty. rewrite (statsdFormat_Return _ _ _ _ _ _ Hty). cbn [fst snd].
  split; [reflexivity | split].
  - intros l ->. cbn [array_of given fst snd]. apply contents_push.
  - intros Hc. now rewrite (format_clean_id _ Hc).
Qed.

(** The scenario of the line protocol: CPU 0 at 42 on host h1. *)
Lemma statsdFormat_grammar_witness :
  allowed (VString "c") /\
  (statsdFormat "h1" "cpu_usage" (VNumber (int 42)) (VString "c") (Some 0%nat)
     {[ 0%nat := [tag (VString "cpu") (VNumber (int 0))] ]}).1
  = Return "cpu_usage._t_cpu.0._t_hostname.h1:42|c".
Proof.
  split; [left; reflexivity |].
  pose proof (statsdFormat_grammar "h1" "cpu_usage" (VNumber (int 42))
                (VString "c") (Some 0%nat)
                {[ 0%nat := [tag (VString "cpu") (VNumber (int 0))] ]}
                (or_introl eq_refl)) as [H _].
  vm_compute in H. vm_compute. exact H.
Defined.

(** C2. [statsdFormat] throws exactly when the type is not one of c, s, g
    and ms; it throws before it touches anything, so there is no line and the
    heap is as it was; for an allowed type it returns a line. *)
Theorem statsdFormat_type_check hostname metric value type moreTags h :
  (allowed type <->
     exists line h', statsdFormat hostname metric value type moreTags h
                     = (Return line, h'))
  /\ (~ allowed type <->
        statsdFormat hostname metric value type moreTags h
        = (Throw (NotAMetricType type), h)).
Proof.
  destruct (includes allowedMetrics type) eqn:E.
  - assert (Hty : allowed type) by now apply includes_allowed.
    rewrite (statsdFormat_Return _ _ _ _ _ _ Hty). split; split.
    + intros _. eauto.
    + intros _. exact Hty.
    + intros Hn. now destruct Hn.
    + discriminate.
  - assert (Hty : ~ allowed type).
    { intros H%includes_allowed. congruence. }
    rewrite (statsdFormat_Throw _ _ _ _ _ _ Hty). split; split.
    + intros H. now destruct Hty.
    + intros (line & h' & H). discriminate.
    + reflexivity.
    + intros _. exact Hty.
Qed.

Lemma dotted_app (l1 l2 : list string) :
  dotted (l1 ++ l2)%list = dotted l1 +:+ dotted l2.
Proof.
  induction l1 as [|a l1 IH]; [reflexivity |].
  change (dotted ((a :: l1) ++ l2)%list) with (a +:+ "." +:+ dotted (l1 ++ l2)%list).
  change (dotted (a :: l1)) with (a +:+ "." +:+ dotted l1).
  now rewrite IH, !append_assoc.
Qed.

Lemma wire_line_longer hostname metric value type tags (t : Tag) :
  wire_line hostname metric value type tags
  <> wire_line hostname metric value type (tags ++ [t]).
Proof.
  unfold wire_line. rewrite map_app, dotted_app. cbn [map dotted].
  intros H%(f_equal String.length). revert H.
  rewrite !length_append. cbn [String.length]. lia.
Qed.

(** X4. Two calls given equal tags in two arrays of their own return the same
    line, whatever else the heaps hold. *)
Lemma statsdFormat_fresh_arrays hostname metric value type tags h h' :
  allowed type ->
  (statsdFormat hostname metric value type (Some (alloc tags h).1) (alloc tags h).2).1
  = (statsdFormat hostname metric value type (Some (alloc tags h').1) (alloc tags h').2).1.
Proof.
  intros Hty. rewrite !(statsdFormat_Return _ _ _ _ _ _ Hty).
  cbn [fst given]. now rewrite !contents_alloc.
Qed.

(** C6. [statsdFormat] pushes the host tag onto the array it is passed, so a
    second call with the same array finds the host tag of the first call among
    its tags: the first call returns the line of the given tags, the second the
    line of the given tags and a host tag, and the two lines differ. *)
Theorem statsdFormat_twice_same_array hostname metric value type l h :
  allowed type ->
  let c1 := statsdFormat hostname metric value type (Some l) h in
  let c2 := statsdFormat hostname metric value type (Some l) c1.2 in
  c1.1 = Return (wire_line hostname metric value type (contents h l))
  /\ c2.1 = Return (wire_line hostname metric value type
                      (contents h l ++ [host_tag hostname]))
  /\ c1.1 <> c2.1.
Proof.
  intros Hty c1 c2. subst c1 c2.
  rewrite !(statsdFormat_Return _ _ _ _ _ _ Hty).
  cbn [fst snd given array_of]. rewrite contents_push.
  repeat split. intros [= H]. now apply wire_line_longer in H.
Qed.

(** CPU 0 at 42 on host h1, encoded twice with one array. *)
Lemma statsdFormat_twice_same_array_witness :
  allowed (VString "c") /\
  let h : heap := {[ 0%nat := [tag (VString "cpu") (VNumber (int 0))] ]} in
  let c1 := statsdFormat "h1" "cpu_usage" (VNumber (int 42)) (VString "c")
              (Some 0%nat) h in
  let c2 := statsdFormat "h1" "cpu_usage" (VNumber (int 42)) (VString "c")
              (Some 0%nat) c1.2 in
  c1.1 = Return "cpu_usage._t_cpu.0._t_hostname.h1:42|c"
  /\ c2.1 = Return "cpu_usage._t_cpu.0._t_hostname.h1._t_hostname.h1:42|c".
Proof.
  split; [left; reflexivity |].
  pose proof (statsdFormat_twice_same_array "h1" "cpu_usage" (VNumber (int 42))
                (VString "c") 0%nat
                {[ 0%nat := [tag (VString "cpu") (VNumber (int 0))] ]}
                (or_introl eq_refl)) as (H1 & H2 & _).
  vm_compute in H1, H2. vm_compute. exact (conj H1 H2).
Defined.

(** C8, as stated, fails on a number: the constructor hands back a number as
    it is, and 0.5 prints with its dot. *)
Lemma tag_number_keeps_dot :
  t_value (tag (VString "load") (VNumber (Num.Dec 5 1))) = VNumber (Num.Dec 5 1)
  /\ render (tag (VString "load") (VNumber (Num.Dec 5 1))) = "_t_load.0.5"
  /\ clean (ToString (t_value (tag (VString "load") (VNumber (Num.Dec 5 1)))))
     = false.
Proof. repeat split. Qed.

(** C8, amended. For a tag whose name and value are strings, neither the
    name nor the value of the tag has a dot or a space: each is the given
    string with every dot and every space replaced by a dash and every other
    character kept.  A name or value that is a number is handed back as it
    is. *)
Theorem tag_sanitizes_strings (name value : string) (n : number) (v : jsval) :
  let t := tag (VString name) (VString value) in
  clean (ToString (t_tag t)) = true
  /\ clean (ToString (t_value t)) = true
  /\ (forall i, String.get i (ToString (t_tag t)) = dash <$> String.get i name)
  /\ (forall i, String.get i (ToString (t_value t)) = dash <$> String.get i value)
  /\ t_value (tag v (VNumber n)) = VNumber n
  /\ t_tag (tag (VNumber n) v) = VNumber n.
Proof.
  cbn [tag t_tag t_value]. repeat split.
  - apply format_string_clean.
  - apply format_string_clean.
  - apply format_string_get.
  - apply format_string_get.
Qed.

(** ** The samplers, one step at a time *)

Lemma allowed_g : allowed (VString "g").
Proof. right; right; left; reflexivity. Qed.

Section SamplerSteps.

Variable hostname : string.

Lemma statsdFormat_M_Return metric value type moreTags st :
  allowed type ->
  exists h',
    statsdFormat_M hostname metric value type moreTags st =
      (Return (wire_line hostname metric value type
                 (given moreTags (arrays st))),
       set_arrays h' st).
Proof.
  intros Hty. unfold statsdFormat_M.
  rewrite (statsdFormat_Return _ _ _ _ _ _ Hty). eauto.
Qed.

(** [send(statsdFormat(metric, value, 'g'))] *)
Lemma send_gauge metric value st :
  exists h',
    (let* line := statsdFormat_M hostname metric value (VString "g") None in
     send (Line line)) st =
      (Return tt,
       {| arrays := h'; latency := latency st; disks := disks st;
          battery := battery st;
          sent := (sent st ++ [gauge hostname metric value []])%list |}).
Proof.
  destruct (statsdFormat_M_Return metric value (VString "g") None st allowed_g)
    as [h' E].
  exists h'. unfold bind. rewrite E. reflexivity.
Qed.

(** [send(statsdFormat(metric, value, 'g', [t1, ..., tn]))] *)
Lemma send_gauge_tags metric value tags st :
  exists h',
    (let* arr := new_array tags in
     let* line := statsdFormat_M hostname metric value (VString "g")
                    (Some arr) in
     send (Line line)) st =
      (Return tt,
       {| arrays := h'; latency := latency st; disks := disks st;
          battery := battery st;
          sent := (sent st ++ [gauge hostname metric value tags])%list |}).
Proof.
  unfold bind at 1. unfold new_array.
  destruct (alloc tags (arrays st)) as [l h1] eqn:Ea.
  destruct (statsdFormat_M_Return metric value (VString "g") (Some l)
              (set_arrays h1 st) allowed_g) as [h' E].
  exists h'. unfold bind. rewrite E. cbn [given set_arrays arrays].
  pose proof (contents_alloc (arrays st) tags) as Hc. rewrite Ea in Hc.
  cbn [fst snd] in Hc. rewrite Hc. reflexivity.
Qed.

Lemma getLatency_first st :
  Num.eqb (latency st) (int (-1)) = true ->
  exists h',
    getLatency hostname st =
      (Return tt,
       {| arrays := h'; latency := latency st; disks := disks st;
          battery := battery st;
          sent := (sent st ++ [gauge hostname "latency" (VNumber (int 0)) []])%list |}).
Proof.
  intros E. unfold getLatency, bind at 1, get_latency. rewrite E.
  apply send_gauge.
Qed.

Lemma getLatency_later st :
  Num.eqb (latency st) (int (-1)) = false ->
  getLatency hostname st = (Return tt, st).
Proof.
  intros E. unfold getLatency, bind, get_latency. now rewrite E.
Qed.

Lemma getLatency_cb_step ms st :
  exists h',
    getLatency_cb hostname ms st =
      (Return tt,
       {| arrays := h'; latency := ms; disks := disks st;
          battery := battery st;
          sent := (sent st ++ [gauge hostname "latency"
                                 (signed (Num.sub ms (latency st))) []])%list |}).
Proof.
  unfold getLatency_cb, bind at 1, get_latency.
  destruct (send_gauge "latency" (signed (Num.sub ms (latency st))) st)
    as [h' E].
  exists h'. unfold bind at 1. unfold bind in E. 
  destruct (statsdFormat_M hostname "latency" _ _ None st) as [[line|e] st1];
    [| discriminate].
  unfold bind. rewrite E. reflexivity.
Qed.

Lemma getDiskUsage_device_step device st :
  exists h',
    getDiskUsage_device hostname device st =
      (Return tt,
       {| arrays := h'; latency := latency st;
          disks := <[remove_first ":" (d_mount device)
                     := Num.round_to 3 (d_use device)]> (disks st);
          battery := battery st;
          sent := (sent st ++ [gauge hostname "disk_usage"
                                 (disk_value device st)
                                 (disk_tags device)])%list |}).
Proof.
  unfold getDiskUsage_device, bind at 1, get_disks.
  destruct (send_gauge_tags "disk_usage" (disk_value device st)
              (disk_tags device) st) as [h' E].
  exists h'. fold (disk_tags device). fold (disk_value device st).
  unfold bind at 1 2 3. unfold bind in E.
  destruct (new_array (disk_tags device) st) as [[arr|e] st1];
    [| discriminate].
  destruct (statsdFormat_M hostname "disk_usage" _ _ (Some arr) st1)
    as [[line|e] st2]; [| discriminate].
  rewrite E. reflexivity.
Qed.

Lemma getBattery_cb_none pct st :
  getBattery_cb hostname {| hasbattery := false; percent := pct |} st
  = (Return tt, st).
Proof. reflexivity. Qed.

Lemma getBattery_cb_first pct st :
  Num.eqb (battery st) (int (-1)) = true ->
  exists h',
    getBattery_cb hostname {| hasbattery := true; percent := pct |} st =
      (Return tt,
       {| arrays := h'; latency := latency st; disks := disks st;
          battery := pct;
          sent := (sent st ++ [gauge hostname "battery" (VNumber pct) []])%list |}).
Proof.
  intros Eb. unfold getBattery_cb. cbn [hasbattery negb percent].
  unfold bind at 1, get_battery. rewrite Eb.
  destruct (send_gauge "battery" (VNumber pct) st) as [h' E].
  exists h'. unfold bind at 1. unfold bind in E.
  destruct (statsdFormat_M hostname "battery" _ _ None st) as [[line|e] st1];
    [| discriminate].
  unfold bind. rewrite E. reflexivity.
Qed.

Lemma getBattery_cb_later pct st :
  Num.eqb (battery st) (int (-1)) = false ->
  exists h',
    getBattery_cb hostname {| hasbattery := true; percent := pct |} st =
      (Return tt,
       {| arrays := h'; latency := latency st; disks := disks st;
          battery := battery st;
          sent := (sent st ++ [gauge hostname "battery"
                                 (signed (Num.sub pct (battery st))) []])%list |}).
Proof.
  intros Eb. unfold getBattery_cb. cbn [hasbattery negb percent].
  unfold bind at 1, get_battery. rewrite Eb.
  apply send_gauge.
Qed.

End SamplerSteps.


(** ** The delta tracker *)

Lemma signed_ToString (v : number) :
  ToString (signed v)
  = if Num.ge0 v then "+" +:+ Num.to_string v else Num.to_string v.
Proof. unfold signed. now destruct (Num.ge0 v). Qed.

Lemma emitted_sent (c : M unit) (st : state) (r : result unit) (h : heap)
    (la ba : number) (di : gmap string number) (ls : list string) :
  c st = (r, {| arrays := h; latency := la; disks := di; battery := ba;
                sent := (sent st ++ ls)%list |}) ->
  emitted c st = ls.
Proof.
  intros E. unfold emitted. rewrite E. cbn [snd sent]. apply drop_app_length.
Qed.

Section Tracker.

Variable hostname : string.

Lemma observe_disk device st :
  exists h',
    observe hostname (RDisk device) st =
      (Return tt,
       {| arrays := h'; latency := latency st;
          disks := <[remove_first ":" (d_mount device)
                     := Num.round_to 3 (d_use device)]> (disks st);
          battery := battery st;
          sent := (sent st ++ [gauge hostname "disk_usage"
                                 (disk_value device st)
                                 (disk_tags device)])%list |}).
Proof. apply getDiskUsage_device_step. Qed.

Lemma observe_battery_first pct st :
  Num.eqb (battery st) (int (-1)) = true ->
  exists h',
    observe hostname (RBattery pct) st =
      (Return tt,
       {| arrays := h'; latency := latency st; disks := disks st;
          battery := pct;
          sent := (sent st ++ [gauge hostname "battery" (VNumber pct) []])%list |}).
Proof. apply getBattery_cb_first. Qed.

Lemma observe_battery_later pct st :
  Num.eqb (battery st) (int (-1)) = false ->
  exists h',
    observe hostname (RBattery pct) st =
      (Return tt,
       {| arrays := h'; latency := latency st; disks := disks st;
          battery := battery st;
          sent := (sent st ++ [gauge hostname "battery"
                                 (signed (Num.sub pct (battery st))) []])%list |}).
Proof. apply getBattery_cb_later. Qed.

Lemma observe_latency_first ms st :
  Num.eqb (latency st) (int (-1)) = true ->
  exists h',
    observe hostname (RLatency ms) st =
      (Return tt,
       {| arrays := h'; latency := ms; disks := disks st;
          battery := battery st;
          sent := (sent st ++ [gauge hostname "latency" (VNumber (int 0)) [];
                               gauge hostname "latency"
                                 (signed (Num.sub ms (latency st))) []])%list |}).
Proof.
  intros E. destruct (getLatency_first hostname st E) as [h1 E1].
  cbn [observe]. unfold bind at 1. rewrite E1.
  match goal with |- context [getLatency_cb hostname ms ?s] =>
    destruct (getLatency_cb_step hostname ms s) as [h2 E2] end.
  exists h2. rewrite E2. cbn [latency disks battery sent].
  now rewrite <- app_assoc.
Qed.

Lemma observe_latency_later ms st :
  Num.eqb (latency st) (int (-1)) = false ->
  exists h',
    observe hostname (RLatency ms) st =
      (Return tt,
       {| arrays := h'; latency := ms; disks := disks st;
          battery := battery st;
          sent := (sent st ++ [gauge hostname "latency"
                                 (signed (Num.sub ms (latency st))) []])%list |}).
Proof.
  intros E. cbn [observe]. unfold bind at 1.
  rewrite (getLatency_later hostname st E). apply getLatency_cb_step.
Qed.

(** A known mount: the line carries stored minus reading. *)
Lemma observe_known_disk device s st :
  stored st (key_of (RDisk device)) = Some s ->
  emitted (observe hostname (RDisk device)) st =
    [gauge hostname "disk_usage"
       (signed (Num.sub s (absolute (RDisk device)))) (disk_tags device)].
Proof.
  unfold stored. cbn [key_of slot absolute]. intros Hs.
  destruct (observe_disk device st) as [h' E].
  rewrite (emitted_sent _ _ _ _ _ _ _ _ E).
  unfold disk_value. destruct (disks st !! _) as [v|]; [| discriminate].
  now injection Hs as ->.
Qed.

(** A known scalar: the line carries reading minus stored. *)
Lemma observe_known_battery pct s st :
  stored st KBattery = Some s ->
  emitted (observe hostname (RBattery pct)) st =
    [gauge hostname "battery" (signed (Num.sub pct s)) []].
Proof.
  unfold stored. cbn [slot]. intros Hs.
  destruct (Num.eqb (battery st) (int (-1))) eqn:Eb; [discriminate |].
  injection Hs as <-.
  destruct (observe_battery_later pct st Eb) as [h' E].
  exact (emitted_sent _ _ _ _ _ _ _ _ E).
Qed.

Lemma observe_known_latency ms s st :
  stored st KLatency = Some s ->
  emitted (observe hostname (RLatency ms)) st =
    [gauge hostname "latency" (signed (Num.sub ms s)) []].
Proof.
  unfold stored. cbn [slot]. intros Hs.
  destruct (Num.eqb (latency st) (int (-1))) eqn:Eb; [discriminate |].
  injection Hs as <-.
  destruct (observe_latency_later ms st Eb) as [h' E].
  exact (emitted_sent _ _ _ _ _ _ _ _ E).
Qed.

(** Disk usage and latency store every reading; the battery stores the
    first one and keeps it. *)
Lemma observe_disk_stores device st :
  slot (observe hostname (RDisk device) st).2 (key_of (RDisk device))
  = Some (absolute (RDisk device)).
Proof.
  destruct (observe_disk device st) as [h' E]. rewrite E.
  cbn [snd slot key_of disks absolute]. apply lookup_insert_eq.
Qed.

Lemma observe_latency_stores ms st :
  slot (observe hostname (RLatency ms) st).2 KLatency = Some ms.
Proof.
  destruct (Num.eqb (latency st) (int (-1))) eqn:Eb.
  - destruct (observe_latency_first ms st Eb) as [h' E]. now rewrite E.
  - destruct (observe_latency_later ms st Eb) as [h' E]. now rewrite E.
Qed.

Lemma observe_battery_keeps pct s st :
  stored st KBattery = Some s ->
  slot (observe hostname (RBattery pct) st).2 KBattery = Some s.
Proof.
  unfold stored. cbn [slot]. intros Hs.
  destruct (Num.eqb (battery st) (int (-1))) eqn:Eb; [discriminate |].
  destruct (observe_battery_later pct st Eb) as [h' E]. now rewrite E.
Qed.

End Tracker.

(** At the start of [run] the tracker holds no value. *)
Lemma stored_init (k : key) : stored init k = None.
Proof. destruct k; reflexivity. Qed.

(** C3. Disk usage on a known mount sends stored minus reading, where
    latency and battery send reading minus stored: mount "/" observed at 10
    and then at 15 sends 10 and then -5, while the battery observed at 10 and
    then at 15 sends 10 and then +5. *)
Theorem disk_usage_10_then_15 :
  emitted (observe "h1" (RDisk (dev 10 "/")) ;;
           observe "h1" (RDisk (dev 15 "/"))) init
  = ["disk_usage._t_type.ext4._t_mount./._t_fs./dev/sda1._t_hostname.h1:10|g";
     "disk_usage._t_type.ext4._t_mount./._t_fs./dev/sda1._t_hostname.h1:-5|g"]
  /\ emitted (observe "h1" (RBattery (int 10)) ;;
              observe "h1" (RBattery (int 15))) init
     = ["battery._t_hostname.h1:10|g"; "battery._t_hostname.h1:+5|g"].
Proof. split; vm_compute; reflexivity. Qed.

(** C4, as stated, fails for latency: the first observation, of 20 ms, sends
    the baseline 0 and then a second line. *)
Lemma first_latency_sends_two_lines :
  stored init KLatency = None
  /\ emitted (observe "h1" (RLatency (int 20))) init
     = ["latency._t_hostname.h1:0|g"; "latency._t_hostname.h1:+21|g"]
  /\ emitted (observe "h1" (RLatency (int 20))) init
     <> [gauge "h1" "latency" (VNumber (int 0)) []]
  /\ sent (run_events "h1" [LatencyReply (int 20)] init).2
     = ["latency._t_hostname.h1:0|g"; "latency._t_hostname.h1:+21|g"].
Proof. repeat split. vm_compute. discriminate. Qed.

(** C4, amended. For a key the tracker holds no value for, the first
    observation of a disk mount or of the battery sends one line, with the
    absolute value as it is; the first observation of latency sends the
    baseline 0 and then one more line when the reading arrives.  Each of them
    stores the absolute value under the key. *)
Theorem first_observation hostname r st :
  stored st (key_of r) = None ->
  (observe hostname r st).1 = Return tt
  /\ match r with
     | RLatency _ =>
         exists v,
           emitted (observe hostname r) st
           = [gauge hostname "latency" (VNumber (int 0)) [];
              gauge hostname "latency" v []]
     | _ =>
         emitted (observe hostname r) st
         = [gauge hostname (metric_of r) (VNumber (absolute r)) (tags_of r)]
     end
  /\ slot (observe hostname r st).2 (key_of r) = Some (absolute r).
Proof.
  unfold stored. destruct r as [device | pct | ms]; cbn [key_of slot].
  - intros Hs. destruct (observe_disk hostname device st) as [h' E].
    split; [now rewrite E |]. split.
    + rewrite (emitted_sent _ _ _ _ _ _ _ _ E). unfold disk_value.
      destruct (disks st !! _); [discriminate | reflexivity].
    + apply observe_disk_stores.
  - destruct (Num.eqb (battery st) (int (-1))) eqn:Eb; [| discriminate].
    intros _. destruct (observe_battery_first hostname pct st Eb) as [h' E].
    split; [now rewrite E |]. split.
    + exact (emitted_sent _ _ _ _ _ _ _ _ E).
    + now rewrite E.
  - destruct (Num.eqb (latency st) (int (-1))) eqn:Eb; [| discriminate].
    intros _. destruct (observe_latency_first hostname ms st Eb) as [h' E].
    split; [now rewrite E |]. split.
    + eexists. exact (emitted_sent _ _ _ _ _ _ _ _ E).
    + apply observe_latency_stores.
Qed.

(** Mount "/" first seen at 10. *)
Lemma first_observation_witness :
  stored init (key_of (RDisk (dev 10 "/"))) = None
  /\ (observe "h1" (RDisk (dev 10 "/")) init).1 = Return tt
  /\ emitted (observe "h1" (RDisk (dev 10 "/"))) init
     = ["disk_usage._t_type.ext4._t_mount./._t_fs./dev/sda1._t_hostname.h1:10|g"]
  /\ slot (observe "h1" (RDisk (dev 10 "/")) init).2 (KDisk "/")
     = Some (Num.round_to 3 (int 10)).
Proof.
  split; [reflexivity |].
  pose proof (first_observation "h1" (RDisk (dev 10 "/")) init eq_refl)
    as (H1 & H2 & H3).
  split; [exact H1 |]. split; [| exact H3].
  rewrite H2. vm_compute. reflexivity.
Defined.

(** C5. The battery keeps the first reading: observed at 50 and then at 60,
    it sends 50 and +10 and still holds 50; latency and disk usage hold the
    last reading. *)
Theorem battery_50_then_60 :
  let c := (observe "h1" (RBattery (int 50)) ;;
            observe "h1" (RBattery (int 60))) in
  emitted c init = ["battery._t_hostname.h1:50|g"; "battery._t_hostname.h1:+10|g"]
  /\ slot (c init).2 KBattery = Some (int 50)
  /\ slot ((observe "h1" (RLatency (int 50)) ;;
            observe "h1" (RLatency (int 60))) init).2 KLatency = Some (int 60).
Proof. repeat split. Qed.

(** C10. A reading that reports no battery changes nothing: no line is sent
    and every variable, the stored battery value among them, is as it was. *)
Theorem getBattery_cb_no_battery hostname pct st :
  getBattery_cb hostname {| hasbattery := false; percent := pct |} st
  = (Return tt, st)
  /\ emitted (getBattery_cb hostname {| hasbattery := false; percent := pct |}) st
     = []
  /\ battery (getBattery_cb hostname
                {| hasbattery := false; percent := pct |} st).2 = battery st.
Proof.
  rewrite getBattery_cb_none. repeat split.
  unfold emitted. cbn [snd]. apply drop_all.
Qed.

(** ** The resync tick *)

Lemma sendRaw_step hostname st :
  exists h',
    sendRaw hostname st =
      (Return tt,
       {| arrays := h'; latency := int (-1); disks := ∅; battery := int (-1);
          sent := (sent st ++ [gauge hostname "latency" (VNumber (int 0)) []])%list |}).
Proof.
  unfold sendRaw, getMedFreq, getDiskUsage, getBattery.
  unfold bind at 1 2 3 4. cbn [set_battery set_latency set_disks].
  match goal with |- context [getLatency hostname ?s] =>
    destruct (getLatency_first hostname s eq_refl) as [h' E] end.
  exists h'. rewrite E. reflexivity.
Qed.

Lemma getDiskUsage_cb_single hostname device st :
  getDiskUsage_cb hostname [device] st = getDiskUsage_device hostname device st.
Proof.
  destruct (getDiskUsage_device_step hostname device st) as [h' E].
  unfold getDiskUsage_cb. cbn [forEach]. unfold bind. now rewrite E.
Qed.

(** C7, as stated, fails for latency: after a reset, a reading of 20 ms is
    sent as +21, not as the absolute 20. *)
Lemma latency_after_reset_sends_delta :
  let st := (sendRaw "h1" (observe "h1" (RLatency (int 20)) init).2).2 in
  stored st KLatency = None
  /\ emitted (getLatency_cb "h1" (int 20)) st = ["latency._t_hostname.h1:+21|g"]
  /\ emitted (getLatency_cb "h1" (int 20)) st
     <> [gauge "h1" "latency" (VNumber (int 20)) []]
  /\ sent (run_events "h1" [LatencyReply (int 20); ResyncTick;
                            LatencyReply (int 20)] init).2
     = ["latency._t_hostname.h1:0|g"; "latency._t_hostname.h1:+21|g";
        "latency._t_hostname.h1:0|g"; "latency._t_hostname.h1:+21|g"].
Proof. repeat split. vm_compute. discriminate. Qed.

(** C7, amended. The resync tick clears the three stored values, so the
    tracker holds no value for any key, and sends the latency baseline 0.
    The next reading of a disk mount or of the battery is sent as the
    absolute value, not as a delta; the next latency reading is sent as one
    line after the baseline. *)
Theorem sendRaw_resets hostname st :
  let st' := (sendRaw hostname st).2 in
  (sendRaw hostname st).1 = Return tt
  /\ disks st' = ∅ /\ battery st' = int (-1) /\ latency st' = int (-1)
  /\ (forall k, stored st' k = None)
  /\ emitted (sendRaw hostname) st
     = [gauge hostname "latency" (VNumber (int 0)) []]
  /\ (forall device,
        emitted (getDiskUsage_cb hostname [device]) st'
        = [gauge hostname "disk_usage"
             (VNumber (Num.round_to 3 (d_use device))) (disk_tags device)])
  /\ (forall pct,
        emitted (getBattery_cb hostname {| hasbattery := true; percent := pct |}) st'
        = [gauge hostname "battery" (VNumber pct) []])
  /\ (forall ms, exists v,
        emitted (getLatency_cb hostname ms) st'
        = [gauge hostname "latency" v []]).
Proof.
  destruct (sendRaw_step hostname st) as [h' E]. rewrite E. cbn [fst snd].
  repeat split.
  - intros [mount | |]; reflexivity.
  - exact (emitted_sent _ _ _ _ _ _ _ _ E).
  - intros device. unfold emitted. rewrite getDiskUsage_cb_single.
    match goal with |- context [getDiskUsage_device hostname device ?s] =>
      destruct (getDiskUsage_device_step hostname device s) as [h2 E2] end.
    rewrite E2. cbn [snd sent]. rewrite drop_app_length.
    unfold disk_value. cbn [disks]. now rewrite lookup_empty.
  - intros pct.
    match goal with |- emitted _ ?s = _ =>
      destruct (getBattery_cb_first hostname pct s eq_refl) as [h2 E2] end.
    exact (emitted_sent _ _ _ _ _ _ _ _ E2).
  - intros ms.
    match goal with |- context [emitted _ ?s] =>
      destruct (getLatency_cb_step hostname ms s) as [h2 E2] end.
    eexists. exact (emitted_sent _ _ _ _ _ _ _ _ E2).
Qed.

(** ** The command line *)

Lemma main_remove (node script : string) (rest : list string) :
  main (node :: script :: "--remove" :: rest)
  = [Log "removing service..."; ServiceRemove "node-statsd"].
Proof. reflexivity. Qed.

Lemma main_run (node script : string) (rest : list string) :
  main (node :: script :: "--run" :: rest)
  = [ServiceRun; Log "running..."; Run].
Proof. reflexivity. Qed.

Lemma main_other (argv : list string) :
  argv_at argv 2 <> VString "--add" ->
  argv_at argv 2 <> VString "--remove" ->
  argv_at argv 2 <> VString "--run" ->
  main argv = usage.
Proof.
  intros Ha Hr Hn. unfold main.
  assert (Hs : forall s, argv_at argv 2 <> VString s ->
                         is_string (argv_at argv 2) s = false).
  { intros s Hne. destruct (argv_at argv 2) as [| n | s']; try reflexivity.
    cbn [is_string]. apply String.eqb_neq. congruence. }
  now rewrite (Hs _ Ha), (Hs _ Hr), (Hs _ Hn).
Qed.

(** The password given on the command line never reaches the service. *)
Lemma main_add_password (argv : list string) (name : string) (o : options) :
  In (ServiceAdd name o) (main argv) ->
  o_password o = None \/ o_password o = Some VUndefined.
Proof.
  unfold main.
  destruct (is_string (argv_at argv 2) "--add" && (3 <=? length argv)%nat).
  - intros [H | [H | []]]; [discriminate |]. injection H as _ <-.
    destruct (length argv =? 4)%nat eqn:E4.
    + right. cbn [o_password]. unfold argv_at.
      apply Nat.eqb_eq in E4.
      rewrite (lookup_ge_None_2 argv 4); [reflexivity | lia].
    + left. now destruct (3 <? length argv)%nat.
  - destruct (is_string (argv_at argv 2) "--remove").
    + intros [H | [H | []]]; discriminate.
    + destruct (is_string (argv_at argv 2) "--run").
      * intros [H | [H | [H | []]]]; discriminate.
      * intros [H | [H | [H | [H | []]]]]; discriminate.
Qed.

(** C9. Called with --add, a user name and a password, the script registers
    the service with the user name and without a password; with the user name
    alone it sets the password property to undefined. *)
Theorem main_add_alice_secret :
  main ["node"; "index.js"; "--add"; "alice"; "secret"]
  = [Log "adding service...";
     ServiceAdd "node-statsd"
       {| o_args := ["--run"]; o_username := Some (VString "alice");
          o_password := None |}]
  /\ main ["node"; "index.js"; "--add"; "alice"]
     = [Log "adding service...";
        ServiceAdd "node-statsd"
          {| o_args := ["--run"]; o_username := Some (VString "alice");
             o_password := Some VUndefined |}].
Proof. split; reflexivity. Qed.

(** * Further properties of the code *)

(** ** The tag constructor and the encoder *)

Lemma replace_all_length (c d : ascii) (s : string) :
  String.length (replace_all c d s) = String.length s.
Proof.
  induction s as [|a s IH]; [reflexivity |].
  cbn [replace_all String.length]. now rewrite IH.
Qed.

Lemma format_format (v : jsval) : format (format v) = format v.
Proof.
  destruct v as [| n | s]; try reflexivity.
  apply (format_clean_id (ToString (format (VString s)))).
  apply format_string_clean.
Qed.

(** X1. Building a tag from the parts of a tag gives the same tag: the
    replacement, once done, finds nothing more to replace; and it keeps the
    length of a string. *)
Theorem tag_of_tag (a b : jsval) (s : string) :
  tag (t_tag (tag a b)) (t_value (tag a b)) = tag a b
  /\ String.length (ToString (format (VString s))) = String.length s.
Proof.
  split.
  - unfold tag. cbn [t_tag t_value]. now rewrite !format_format.
  - cbn [format ToString]. now rewrite !replace_all_length.
Qed.

(** X2. A call leaves every array alone but the one it is passed: whether it
    returns or throws, and also when it makes an array of its own. *)
Theorem statsdFormat_other_arrays hostname metric value type moreTags h
    (l' : loc) (xs : list Tag) :
  h !! l' = Some xs ->
  moreTags <> Some l' ->
  (statsdFormat hostname metric value type moreTags h).2 !! l' = Some xs.
Proof.
  intros Hl Hne. unfold statsdFormat.
  destruct (negb (includes allowedMetrics type)); [exact Hl |].
  destruct moreTags as [l |]; cbn [alloc snd]; unfold push.
  - rewrite lookup_insert_ne; [exact Hl | congruence].
  - assert (Hf : fresh (dom h) <> l').
    { intros E. apply (is_fresh (dom h)). rewrite E. apply elem_of_dom. eauto. }
    now rewrite !lookup_insert_ne.
Qed.

Lemma statsdFormat_other_arrays_witness :
  ({[ 0%nat := [tag (VString "cpu") (VNumber (int 0))];
      1%nat := [tag (VString "cpu") (VNumber (int 1))] ]} : heap) !! 1%nat
    = Some [tag (VString "cpu") (VNumber (int 1))]
  /\ Some 0%nat <> Some 1%nat
  /\ (statsdFormat "h1" "cpu_usage" (VNumber (int 42)) (VString "c") (Some 0%nat)
        {[ 0%nat := [tag (VString "cpu") (VNumber (int 0))];
           1%nat := [tag (VString "cpu") (VNumber (int 1))] ]}).2 !! 1%nat
     = Some [tag (VString "cpu") (VNumber (int 1))].
Proof.
  assert (H1 : ({[ 0%nat := [tag (VString "cpu") (VNumber (int 0))];
                   1%nat := [tag (VString "cpu") (VNumber (int 1))] ]} : heap)
                 !! 1%nat = Some [tag (VString "cpu") (VNumber (int 1))])
    by (vm_compute; reflexivity).
  assert (H2 : Some 0%nat <> Some 1%nat) by discriminate.
  split; [exact H1 |]. split; [exact H2 |].
  exact (statsdFormat_other_arrays "h1" "cpu_usage" (VNumber (int 42))
           (VString "c") (Some 0%nat) _ 1%nat _ H1 H2).
Defined.

Lemma statsdFormat_times_snoc hostname metric value type l n h :
  allowed type ->
  contents (statsdFormat_times hostname metric value type l n h) l
  = (contents h l ++ replicate n (host_tag hostname))%list.
Proof.
  intros Hty. revert h. induction n as [|n IH]; intros h.
  - cbn [statsdFormat_times replicate]. now rewrite app_nil_r.
  - cbn [statsdFormat_times replicate]. rewrite IH.
    rewrite (statsdFormat_Return _ _ _ _ _ _ Hty).
    cbn [snd fst array_of]. rewrite contents_push.
    now rewrite <- app_assoc.
Qed.

(** X3. Every call with one array adds one host tag to it: after [n] calls the
    array holds the given tags and [n] host tags, and the next call returns
    the line of all of them. *)
Theorem statsdFormat_times_host_tags hostname metric value type l n h :
  allowed type ->
  contents (statsdFormat_times hostname metric value type l n h) l
  = (contents h l ++ replicate n (host_tag hostname))%list
  /\ (statsdFormat hostname metric value type (Some l)
        (statsdFormat_times hostname metric value type l n h)).1
     = Return (wire_line hostname metric value type
                 (contents h l ++ replicate n (host_tag hostname))).
Proof.
  intros Hty. split; [now apply statsdFormat_times_snoc |].
  rewrite (statsdFormat_Return _ _ _ _ _ _ Hty). cbn [fst given].
  now rewrite statsdFormat_times_snoc.
Qed.

Lemma statsdFormat_times_host_tags_witness :
  allowed (VString "c")
  /\ contents (statsdFormat_times "h1" "cpu_usage" (VNumber (int 42))
                 (VString "c") 0%nat 2
                 {[ 0%nat := [tag (VString "cpu") (VNumber (int 0))] ]}) 0%nat
     = [tag (VString "cpu") (VNumber (int 0)); host_tag "h1"; host_tag "h1"]
  /\ (statsdFormat "h1" "cpu_usage" (VNumber (int 42)) (VString "c") (Some 0%nat)
        (statsdFormat_times "h1" "cpu_usage" (VNumber (int 42))
           (VString "c") 0%nat 2
           {[ 0%nat := [tag (VString "cpu") (VNumber (int 0))] ]})).1
     = Return "cpu_usage._t_cpu.0._t_hostname.h1._t_hostname.h1._t_hostname.h1:42|c".
Proof.
  split; [left; reflexivity |].
  pose proof (statsdFormat_times_host_tags "h1" "cpu_usage" (VNumber (int 42))
                (VString "c") 0%nat 2
                {[ 0%nat := [tag (VString "cpu") (VNumber (int 0))] ]}
                (or_introl eq_refl)) as [H1 H2].
  vm_compute in H1, H2. vm_compute. exact (conj H1 H2).
Defined.

(** Two calls given equal tags, each in an array of its own, return the same
    line. *)
Lemma statsdFormat_fresh_arrays_witness :
  allowed (VString "c")
  /\ (statsdFormat "h1" "cpu_usage" (VNumber (int 42)) (VString "c")
        (Some (alloc [tag (VString "cpu") (VNumber (int 0))] ∅).1)
        (alloc [tag (VString "cpu") (VNumber (int 0))] ∅).2).1
     = (statsdFormat "h1" "cpu_usage" (VNumber (int 42)) (VString "c")
          (Some (alloc [tag (VString "cpu") (VNumber (int 0))]
                   {[ 0%nat := [host_tag "h1"] ]}).1)
          (alloc [tag (VString "cpu") (VNumber (int 0))]
             {[ 0%nat := [host_tag "h1"] ]}).2).1.
Proof.
  split; [left; reflexivity |].
  exact (statsdFormat_fresh_arrays "h1" "cpu_usage" (VNumber (int 42))
           (VString "c") [tag (VString "cpu") (VNumber (int 0))]
           ∅ {[ 0%nat := [host_tag "h1"] ]} (or_introl eq_refl)).
Defined.

(** X5. [replace(':', '')] takes out the first colon and nothing else: what
    stands before it and after it is kept, later colons too; a string
    without a colon is kept whole. *)
Theorem remove_first_first (c : ascii) (a b : string) :
  occurs c a = false ->
  remove_first c (a +:+ String c b) = a +:+ b
  /\ remove_first c a = a.
Proof.
  induction a as [|x a IH]; intros Ha.
  - split; [| reflexivity].
    change (remove_first c (String c b) = b). cbn [remove_first].
    now rewrite Ascii.eqb_refl.
  - cbn [occurs] in Ha. apply orb_false_iff in Ha as [Hx Ha].
    destruct (IH Ha) as [IH1 IH2].
    rewrite !append_cons. cbn [remove_first]. rewrite Hx.
    now rewrite IH1, IH2.
Qed.

Lemma remove_first_first_witness :
  occurs ":" "C" = false
  /\ remove_first ":" ("C" +:+ String ":" "\data:1") = "C" +:+ "\data:1"
  /\ remove_first ":" "C" = "C".
Proof.
  split; [reflexivity |].
  exact (remove_first_first ":" "C" "\data:1" eq_refl).
Defined.

(** ** The fast tier *)

Lemma allowed_c : allowed (VString "c").
Proof. left; reflexivity. Qed.

Section FastSteps.

Variable hostname : string.

(** [statsdFormat(metric, value, type, [t1, ..., tn])] *)
Lemma format_tags metric value type tags st :
  allowed type ->
  exists h',
    (let* arr := new_array tags in
     statsdFormat_M hostname metric value type (Some arr)) st =
      (Return (wire_line hostname metric value type tags), set_arrays h' st).
Proof.
  intros Hty. unfold bind, new_array.
  destruct (alloc tags (arrays st)) as [l h1] eqn:Ea.
  destruct (statsdFormat_M_Return hostname metric value type (Some l)
              (set_arrays h1 st) Hty) as [h' E].
  exists h'. rewrite E. cbn [given set_arrays arrays].
  pose proof (contents_alloc (arrays st) tags) as Hc. rewrite Ea in Hc.
  cbn [fst snd] in Hc. now rewrite Hc.
Qed.

(** [send(statsdFormat(metric, value, type, [t1, ..., tn]))] *)
Lemma send_tags metric value type tags st :
  allowed type ->
  exists h',
    (let* arr := new_array tags in
     let* line := statsdFormat_M hostname metric value type (Some arr) in
     send (Line line)) st =
      (Return tt,
       {| arrays := h'; latency := latency st; disks := disks st;
          battery := battery st;
          sent := (sent st ++ [wire_line hostname metric value type tags])%list |}).
Proof.
  intros Hty. destruct (format_tags metric value type tags st Hty) as [h' E].
  exists h'. unfold bind in *.
  destruct (new_array tags st) as [[arr|e] st1]; [| discriminate].
  now rewrite E.
Qed.

Lemma getCpuUsage_cpu_step cpu index st :
  exists h',
    getCpuUsage_cpu hostname cpu index st =
      (Return tt,
       {| arrays := h'; latency := latency st; disks := disks st;
          battery := battery st;
          sent := (sent st ++ [cpu_line hostname index cpu])%list |}).
Proof. apply send_tags, allowed_c. Qed.

Lemma forEach_index_step cpus index st :
  exists h',
    forEach_index (getCpuUsage_cpu hostname) index cpus st =
      (Return tt,
       {| arrays := h'; latency := latency st; disks := disks st;
          battery := battery st;
          sent := (sent st
                   ++ imap (fun i => cpu_line hostname (index + i)) cpus)%list |}).
Proof.
  revert index st. induction cpus as [|cpu cpus IH]; intros index st.
  - exists (arrays st). cbn [forEach_index imap]. rewrite app_nil_r.
    now destruct st.
  - destruct (getCpuUsage_cpu_step cpu index st) as [h1 E1].
    cbn [forEach_index]. unfold bind. rewrite E1.
    match goal with |- context [forEach_index _ _ _ ?s] =>
      destruct (IH (S index) s) as [h2 E2] end.
    exists h2. rewrite E2. cbn [latency disks battery sent imap].
    rewrite <- app_assoc. cbn [app]. rewrite Nat.add_0_r.
    do 4 f_equal. apply imap_ext. intros i x _. cbn.
    now rewrite Nat.add_succ_r.
Qed.

Lemma getCpuUsage_cb_step cpus st :
  exists h',
    getCpuUsage_cb hostname cpus st =
      (Return tt,
       {| arrays := h'; latency := latency st; disks := disks st;
          battery := battery st;
          sent := (sent st ++ imap (cpu_line hostname) cpus)%list |}).
Proof. apply (forEach_index_step cpus 0 st). Qed.

Lemma getUptime_step uptime st :
  exists h',
    getUptime hostname uptime st =
      (Return tt,
       {| arrays := h'; latency := latency st; disks := disks st;
          battery := battery st;
          sent := (sent st ++ [counter hostname "uptime" (VNumber uptime) []])%list |}).
Proof.
  destruct (statsdFormat_M_Return hostname "uptime" (VNumber uptime)
              (VString "c") None st allowed_c) as [h' E].
  exists h'. unfold getUptime, bind. now rewrite E.
Qed.

Lemma getDiskIO_cb_step data st :
  exists h',
    getDiskIO_cb hostname data st =
      (Return tt,
       {| arrays := h'; latency := latency st; disks := disks st;
          battery := battery st;
          sent := (sent st ++ [diskio_line hostname "read" (rIO_sec data);
                               diskio_line hostname "write" (wIO_sec data)])%list |}).
Proof.
  unfold getDiskIO_cb.
  destruct (send_tags "diskio" (VNumber (rIO_sec data)) (VString "c")
              [tag (VString "direction") (VString "read")] st allowed_c)
    as [h1 E1].
  unfold bind at 1 2 3. unfold bind in E1.
  destruct (new_array [tag (VString "direction") (VString "read")] st)
    as [[arr|e] st1]; [| discriminate].
  destruct (statsdFormat_M hostname "diskio" _ _ (Some arr) st1)
    as [[line|e] st2]; [| discriminate].
  rewrite E1.
  match goal with |- context [bind _ _ ?s] =>
    destruct (send_tags "diskio" (VNumber (wIO_sec data)) (VString "c")
                [tag (VString "direction") (VString "write")] s allowed_c)
      as [h2 E2] end.
  exists h2. rewrite E2. cbn [latency disks battery sent].
  now rewrite <- app_assoc.
Qed.

Lemma getNetworkUse_cb_step iface data st :
  exists h',
    getNetworkUse_cb hostname iface data st =
      (Return tt,
       {| arrays := h'; latency := latency st; disks := disks st;
          battery := battery st;
          sent := (sent st ++
                   if num_gt (tx_sec data) (int (-1))
                      && num_gt (rx_sec data) (int (-1))
                   then [network_line hostname iface "rx" (rx_sec data)
                           +:+ newline
                           +:+ network_line hostname iface "tx" (tx_sec data)]
                   else [])%list |}).
Proof.
  unfold getNetworkUse_cb.
  destruct (num_gt (tx_sec data) (int (-1)) && num_gt (rx_sec data) (int (-1))).
  2:{ exists (arrays st). rewrite app_nil_r. now destruct st. }
  destruct (format_tags "network" (VNumber (rx_sec data)) (VString "c")
              [tag (VString "interface") (VString iface);
               tag (VString "direction") (VString "rx")] st allowed_c)
    as [h1 E1].
  unfold bind at 1 2. unfold bind in E1.
  destruct (new_array _ st) as [[arr|e] st1]; [| discriminate].
  rewrite E1.
  destruct (format_tags "network" (VNumber (tx_sec data)) (VString "c")
              [tag (VString "interface") (VString iface);
               tag (VString "direction") (VString "tx")] (set_arrays h1 st)
              allowed_c) as [h2 E2].
  unfold bind at 1 2. unfold bind in E2.
  destruct (new_array _ (set_arrays h1 st)) as [[arr2|e] st2]; [| discriminate].
  rewrite E2. exists h2. reflexivity.
Qed.

End FastSteps.

(** ** Runs of the loop *)


Lemma same_tracker_sym st st' : same_tracker st st' -> same_tracker st' st.
Proof. intros (H1 & H2 & H3). now repeat split. Qed.

Lemma same_tracker_trans st1 st2 st3 :
  same_tracker st1 st2 -> same_tracker st2 st3 -> same_tracker st1 st3.
Proof.
  intros (H1 & H2 & H3) (K1 & K2 & K3). repeat split; congruence.
Qed.




Lemma keeps_tracker_seq (c k : M unit) :
  regular c -> keeps_tracker c -> keeps_tracker k -> keeps_tracker (c ;; k).
Proof.
  intros Hr Hc Hk st.
  destruct (Hr st) as (h1 & la1 & di1 & ba1 & ls1 & E1 & _).
  specialize (Hc st). unfold bind. rewrite E1 in *. cbn [snd] in Hc.
  eapply same_tracker_trans; [exact Hc | apply Hk].
Qed.

(** A step lemma of the usual shape makes its computation regular. *)
Ltac regular_by step :=
  let st := fresh "st" in
  let st2 := fresh "st2" in
  let h := fresh "h" in
  let E := fresh "E" in
  let H1 := fresh "H" in
  let H2 := fresh "H" in
  let H3 := fresh "H" in
  intros st; destruct (step st) as [h E];
  do 5 eexists; split; [exact E |];
  intros st2 (H1 & H2 & H3); destruct (step st2) as [h2 E2];
  exists h2; rewrite E2, ?H1, ?H2, ?H3; reflexivity.

Section Runs.

Variable hostname : string.








Lemma regular_handle_fast e : regular (handle_fast hostname e).
Proof.
  destruct e as [uptime | cpus | name data | data]; cbn [handle_fast].
  - regular_by (getUptime_step hostname uptime).
  - regular_by (getCpuUsage_cb_step hostname cpus).
  - regular_by (getNetworkUse_cb_step hostname name data).
  - regular_by (getDiskIO_cb_step hostname data).
Qed.

Lemma keeps_tracker_handle_fast e : keeps_tracker (handle_fast hostname e).
Proof.
  intros st. destruct e as [uptime | cpus | name data | data]; cbn [handle_fast].
  - destruct (getUptime_step hostname uptime st) as [h E]. rewrite E.
    now repeat split.
  - destruct (getCpuUsage_cb_step hostname cpus st) as [h E]. rewrite E.
    now repeat split.
  - destruct (getNetworkUse_cb_step hostname name data st) as [h E].
    rewrite E. now repeat split.
  - destruct (getDiskIO_cb_step hostname data st) as [h E]. rewrite E.
    now repeat split.
Qed.



End Runs.

Lemma emitted_step (c : M unit) (st : state) h la di ba ls :
  c st = (Return tt, {| arrays := h; latency := la; disks := di; battery := ba;
                        sent := (sent st ++ ls)%list |}) ->
  emitted c st = ls.
Proof. apply emitted_sent. Qed.

(** X6. What each event of the fast tier sends: the uptime tick one line, a CPU
    reply one datagram per CPU, in order and tagged with its index, a network
    reply one datagram of two lines (rx, then tx) when both rates are above
    -1 and nothing otherwise, a disk I/O reply a read and a write datagram.
    None of them throws or touches the three stored values. *)
Theorem handle_fast_sends hostname e st :
  (handle_fast hostname e st).1 = Return tt
  /\ same_tracker st (handle_fast hostname e st).2
  /\ emitted (handle_fast hostname e) st =
     match e with
     | HighFreqTick uptime => [counter hostname "uptime" (VNumber uptime) []]
     | CurrentLoadReply cpus => imap (cpu_line hostname) cpus
     | NetworkStatsReply iface data =>
         if num_gt (tx_sec data) (int (-1)) && num_gt (rx_sec data) (int (-1))
         then [network_line hostname iface "rx" (rx_sec data) +:+ newline
               +:+ network_line hostname iface "tx" (tx_sec data)]
         else []
     | DisksIOReply data =>
         [diskio_line hostname "read" (rIO_sec data);
          diskio_line hostname "write" (wIO_sec data)]
     end.
Proof.
  split; [| split; [apply keeps_tracker_handle_fast |]].
  - destruct (regular_handle_fast hostname e st)
      as (h & la & di & ba & ls & E & _). now rewrite E.
  - destruct e as [uptime | cpus | name data | data]; cbn [handle_fast].
    + destruct (getUptime_step hostname uptime st) as [h E].
      exact (emitted_step _ _ _ _ _ _ _ E).
    + destruct (getCpuUsage_cb_step hostname cpus st) as [h E].
      exact (emitted_step _ _ _ _ _ _ _ E).
    + destruct (getNetworkUse_cb_step hostname name data st) as [h E].
      exact (emitted_step _ _ _ _ _ _ _ E).
    + destruct (getDiskIO_cb_step hostname data st) as [h E].
      exact (emitted_step _ _ _ _ _ _ _ E).
Qed.








(** ** Replies in a row *)

Section Replies.

Variable hostname : string.

Lemma battery_replies_step (pcts : list number) st :
  Num.eqb (battery st) (int (-1)) = false ->
  exists h',
    forEach (handle hostname) (battery_replies pcts) st =
      (Return tt,
       {| arrays := h'; latency := latency st; disks := disks st;
          battery := battery st;
          sent := (sent st
                   ++ map (fun pct => gauge hostname "battery"
                                        (signed (Num.sub pct (battery st))) [])
                        pcts)%list |}).
Proof.
  intros Eb. revert st Eb. induction pcts as [|pct pcts IH]; intros st Eb.
  - exists (arrays st). cbn [battery_replies map forEach]. rewrite app_nil_r.
    now destruct st.
  - cbn [battery_replies map forEach handle]. unfold bind.
    destruct (getBattery_cb_later hostname pct st Eb) as [h1 E1]. rewrite E1.
    match goal with |- context [forEach _ _ ?s] =>
      destruct (IH s Eb) as [h2 E2] end.
    exists h2. unfold battery_replies in E2. rewrite E2.
    cbn [latency disks battery sent]. now rewrite <- app_assoc.
Qed.


Lemma getDiskUsage_cb_step (mounted : list device) st :
  exists h' ls,
    getDiskUsage_cb hostname mounted st =
      (Return tt,
       {| arrays := h'; latency := latency st;
          disks := disks_after mounted (disks st);
          battery := battery st; sent := (sent st ++ ls)%list |})
    /\ length ls = length mounted.
Proof.
  unfold getDiskUsage_cb. revert st.
  induction mounted as [|device mounted IH]; intros st.
  - exists (arrays st), []. cbn [forEach disks_after foldl].
    rewrite app_nil_r. split; [now destruct st | reflexivity].
  - cbn [forEach]. unfold bind.
    destruct (getDiskUsage_device_step hostname device st) as [h1 E1].
    rewrite E1.
    match goal with |- context [forEach _ _ ?s] =>
      destruct (IH s) as (h2 & ls & E2 & Hl) end.
    exists h2, (gauge hostname "disk_usage" (disk_value device st)
                  (disk_tags device) :: ls).
    rewrite E2. cbn [latency disks battery sent]. split.
    + rewrite <- app_assoc. reflexivity.
    + cbn [length]. now rewrite Hl.
Qed.

Lemma medium_ticks_step (n : nat) st :
  Num.eqb (latency st) (int (-1)) = true ->
  exists h',
    forEach (handle hostname) (replicate n MedFreqTick) st =
      (Return tt,
       {| arrays := h'; latency := latency st; disks := disks st;
          battery := battery st;
          sent := (sent st
                   ++ replicate n (gauge hostname "latency"
                                     (VNumber (int 0)) []))%list |}).
Proof.
  intros Eb. revert st Eb. induction n as [|n IH]; intros st Eb.
  - exists (arrays st). cbn [replicate forEach]. rewrite app_nil_r.
    now destruct st.
  - cbn [replicate forEach handle]. unfold bind at 1.
    unfold getMedFreq, getDiskUsage, getBattery, bind at 1 2.
    destruct (getLatency_first hostname st Eb) as [h1 E1]. rewrite E1.
    cbn [ret].
    match goal with |- context [forEach _ _ ?s] =>
      destruct (IH s Eb) as [h2 E2] end.
    exists h2. rewrite E2. cbn [latency disks battery sent].
    now rewrite <- app_assoc.
Qed.

End Replies.

Lemma disks_after_lookup_other (mounted : list device)
    (di : gmap string number) (m : string) :
  ~ In m (map mount_key mounted) ->
  disks_after mounted di !! m = di !! m.
Proof.
  revert di. induction mounted as [|device mounted IH]; intros di Hm.
  - reflexivity.
  - cbn [disks_after foldl]. cbn [map In] in Hm.
    change (disks_after mounted
              (<[mount_key device := Num.round_to 3 (d_use device)]> di) !! m
            = di !! m).
    rewrite IH by tauto. apply lookup_insert_ne. tauto.
Qed.

Lemma disks_after_dom (mounted : list device) (di : gmap string number) :
  dom (disks_after mounted di)
  = dom di ∪ list_to_set (map mount_key mounted).
Proof.
  revert di. induction mounted as [|device mounted IH]; intros di.
  - cbn [disks_after foldl map list_to_set]. now rewrite (right_id_L ∅ (∪)).
  - change (disks_after (device :: mounted) di)
      with (disks_after mounted
              (<[mount_key device := Num.round_to 3 (d_use device)]> di)).
    rewrite IH, dom_insert_L. cbn [map list_to_set].
    rewrite (comm_L (∪) {[mount_key device]} (dom di)).
    now rewrite (assoc_L (∪)).
Qed.

Lemma disks_after_snoc (mounted : list device) (device : device)
    (di : gmap string number) :
  disks_after (mounted ++ [device]) di !! mount_key device
  = Some (Num.round_to 3 (d_use device)).
Proof.
  unfold disks_after. rewrite foldl_app. cbn [foldl].
  apply lookup_insert_eq.
Qed.

(** X11. The battery holds its first reading for good: whatever readings follow,
    each is sent as its difference to that first reading, not to the reading
    before, and the stored value stays. *)
Theorem battery_keeps_first_reading hostname (pcts : list number) st :
  Num.eqb (battery st) (int (-1)) = false ->
  emitted (forEach (handle hostname) (battery_replies pcts)) st
  = map (fun pct => gauge hostname "battery"
                      (signed (Num.sub pct (battery st))) []) pcts
  /\ battery (forEach (handle hostname) (battery_replies pcts) st).2
     = battery st.
Proof.
  intros Eb. destruct (battery_replies_step hostname pcts st Eb) as [h E].
  rewrite (emitted_step _ _ _ _ _ _ _ E), E. now split.
Qed.

Lemma battery_keeps_first_reading_witness :
  Num.eqb (battery (handle "h1" (BatteryReply (mkBattery true (int 50))) init).2)
    (int (-1)) = false
  /\ emitted (forEach (handle "h1")
                (battery_replies [int 60; int 70; int 40]))
       (handle "h1" (BatteryReply (mkBattery true (int 50))) init).2
     = ["battery._t_hostname.h1:+10|g"; "battery._t_hostname.h1:+20|g";
        "battery._t_hostname.h1:-10|g"].
Proof.
  split; [reflexivity |].
  pose proof (battery_keeps_first_reading "h1" [int 60; int 70; int 40]
                (handle "h1" (BatteryReply (mkBattery true (int 50))) init).2
                eq_refl) as [H _].
  rewrite H. vm_compute. reflexivity.
Defined.


(** X13. A reply of [si.fsSize] sends one datagram per device, makes every mount
    of the reply known and forgets none, leaves the value of every other
    mount, the latency and the battery as they were, and stores for the
    mount of the last device that device's value. *)
Theorem getDiskUsage_cb_reply hostname (mounted : list device) st :
  let st' := (getDiskUsage_cb hostname mounted st).2 in
  (getDiskUsage_cb hostname mounted st).1 = Return tt
  /\ length (emitted (getDiskUsage_cb hostname mounted) st) = length mounted
  /\ dom (disks st') = dom (disks st) ∪ list_to_set (map mount_key mounted)
  /\ (forall m, ~ In m (map mount_key mounted) ->
        disks st' !! m = disks st !! m)
  /\ (forall device, last mounted = Some device ->
        disks st' !! mount_key device = Some (Num.round_to 3 (d_use device)))
  /\ latency st' = latency st /\ battery st' = battery st.
Proof.
  destruct (getDiskUsage_cb_step hostname mounted st) as (h & ls & E & Hl).
  rewrite (emitted_step _ _ _ _ _ _ _ E), E. cbn [fst snd disks latency battery].
  repeat split.
  - exact Hl.
  - apply disks_after_dom.
  - apply disks_after_lookup_other.
  - intros device [l' ->]%last_Some. apply disks_after_snoc.
Qed.

(** X14. While no latency reply has arrived (the stored latency is -1), every
    medium tick sends the baseline 0 again and changes nothing else. *)
Theorem medium_ticks_resend_baseline hostname (n : nat) st :
  Num.eqb (latency st) (int (-1)) = true ->
  emitted (forEach (handle hostname) (replicate n MedFreqTick)) st
  = replicate n (gauge hostname "latency" (VNumber (int 0)) [])
  /\ same_tracker st (forEach (handle hostname) (replicate n MedFreqTick) st).2.
Proof.
  intros Eb. destruct (medium_ticks_step hostname n st Eb) as [h E].
  rewrite (emitted_step _ _ _ _ _ _ _ E), E. now repeat split.
Qed.

Lemma medium_ticks_resend_baseline_witness :
  Num.eqb (latency init) (int (-1)) = true
  /\ emitted (forEach (handle "h1") (replicate 3 MedFreqTick)) init
     = ["latency._t_hostname.h1:0|g"; "latency._t_hostname.h1:0|g";
        "latency._t_hostname.h1:0|g"].
Proof.
  split; [reflexivity |].
  pose proof (medium_ticks_resend_baseline "h1" 3 init eq_refl) as [H _].
  rewrite H. vm_compute. reflexivity.
Defined.

(** ** The command line, every argument list *)

Lemma argv_at_length (argv : list string) (s : string) :
  argv_at argv 2 = VString s -> (3 <=? length argv)%nat = true.
Proof.
  unfold argv_at. destruct (argv !! 2%nat) as [s' |] eqn:E; [| discriminate].
  intros _. apply Nat.leb_le. apply lookup_lt_Some in E. lia.
Qed.

Lemma is_string_true (v : jsval) (s : string) :
  is_string v s = true <-> v = VString s.
Proof.
  destruct v as [| n | s']; cbn [is_string]; try (split; discriminate).
  rewrite String.eqb_eq. split; [now intros -> | now intros [= ->]].
Qed.

Lemma is_string_false (v : jsval) (s : string) :
  is_string v s = false <-> v <> VString s.
Proof.
  rewrite <- is_string_true. now destruct (is_string v s).
Qed.

(** The options [service.add] is called with. *)
Lemma main_cases (argv : list string) :
  (argv_at argv 2 = VString "--add"
   /\ main argv =
      [Log "adding service...";
       ServiceAdd "node-statsd"
         {| o_args := ["--run"];
            o_username := if (3 <? length argv)%nat
                          then Some (argv_at argv 3) else None;
            o_password := if (length argv =? 4)%nat
                          then Some VUndefined else None |}])
  \/ (argv_at argv 2 = VString "--remove"
      /\ main argv = [Log "removing service..."; ServiceRemove "node-statsd"])
  \/ (argv_at argv 2 = VString "--run"
      /\ main argv = [ServiceRun; Log "running..."; Run])
  \/ (argv_at argv 2 <> VString "--add"
      /\ argv_at argv 2 <> VString "--remove"
      /\ argv_at argv 2 <> VString "--run"
      /\ main argv = usage).
Proof.
  unfold main.
  destruct (is_string (argv_at argv 2) "--add") eqn:Ea.
  - apply is_string_true in Ea. left. split; [exact Ea |].
    rewrite (argv_at_length argv _ Ea). cbn [andb].
    destruct (3 <? length argv)%nat eqn:E3;
      destruct (length argv =? 4)%nat eqn:E4; cbn [o_args o_username o_password];
      try reflexivity.
    + apply Nat.eqb_eq in E4. unfold argv_at at 2.
      rewrite (lookup_ge_None_2 argv 4) by lia. reflexivity.
    + apply Nat.eqb_eq in E4. apply Nat.ltb_ge in E3. lia.
  - cbn [andb]. apply is_string_false in Ea.
    destruct (is_string (argv_at argv 2) "--remove") eqn:Er.
    { apply is_string_true in Er. right; left. now split. }
    apply is_string_false in Er.
    destruct (is_string (argv_at argv 2) "--run") eqn:En.
    { apply is_string_true in En. right; right; left. now split. }
    apply is_string_false in En. right; right; right. now repeat split.
Qed.

(** X15. Whatever the arguments, [service.add] is called with the arguments
    [--run], with the fourth argument as user name when there is one, and
    never with a password: the password property is absent, or undefined
    when exactly a user name is given. *)
Theorem main_add_options (argv : list string) :
  Forall (fun e =>
            match e with
            | ServiceAdd name o =>
                name = "node-statsd"
                /\ o_args o = ["--run"]
                /\ o_username o = (if (3 <? length argv)%nat
                                   then Some (argv_at argv 3) else None)
                /\ o_password o = (if (length argv =? 4)%nat
                                   then Some VUndefined else None)
            | _ => True
            end) (main argv).
Proof.
  destruct (main_cases argv) as [[_ E] | [[_ E] | [[_ E] | (_ & _ & _ & E)]]];
    rewrite E; unfold usage; repeat constructor.
Qed.

(** X16. The dispatch looks at the third argument only: the service is added,
    removed or run exactly when it is --add, --remove or --run, and in every
    other case, a missing argument included, the usage is printed and the
    process exits; it exits in no other case.  The length test of the --add
    branch never decides anything. *)
Theorem main_dispatch (argv : list string) :
  ((exists o, In (ServiceAdd "node-statsd" o) (main argv))
     <-> argv_at argv 2 = VString "--add")
  /\ (In (ServiceRemove "node-statsd") (main argv)
        <-> argv_at argv 2 = VString "--remove")
  /\ (In Run (main argv) <-> argv_at argv 2 = VString "--run")
  /\ (In (Exit 0) (main argv) <-> main argv = usage)
  /\ (main argv = usage <->
        argv_at argv 2 <> VString "--add"
        /\ argv_at argv 2 <> VString "--remove"
        /\ argv_at argv 2 <> VString "--run").
Proof.
  destruct (main_cases argv)
    as [[Ha E] | [[Ha E] | [[Ha E] | (Ha & Hr & Hn & E)]]];
    rewrite E, ?Ha; unfold usage; cbn [In];
    (split; [| split; [| split; [| split]]]); split;
    try (intros [o H]; revert H);
    try (intuition (try discriminate; try congruence); fail).
  all: try (intros _; eexists; right; left; reflexivity).
Qed.
